(** * Comparator-driven hibernate wake-up (PSoC 6 code example, [main.c])

    A shallow embedding of [main.c]: the two functions of the file,
    [lpcomp_enter_hibernate_mode] and [main], are written in a small
    state-and-termination monad over a [world] that holds the file-scope
    configuration record, the indicator pin, the console and the
    chronological list of platform calls made so far.  The answers of the
    platform (HAL, BSP, PDL, retarget-io) are inputs: an [environment] of
    return statuses and the list of comparator samples. *)

From Stdlib Require Import ZArith String Ascii List Bool Lia.
Import ListNotations.
Local Open Scope Z_scope.

(** ** Types and constants *)

(** [cy_rslt_t] is a 32-bit unsigned status word; only equality with the
    success codes is ever used. *)
Definition cy_rslt_t := Z.
Definition cyhal_power_level_t := Z.
Definition cyhal_syspm_hibernate_source_t := Z.

(** Macros of [main.c]. *)
Definition MY_LPCOMP_ULP_SETTLE : Z := 50.
Definition MY_LPCOMP_OUTPUT_LOW : Z := 0.
Definition MY_LPCOMP_OUTPUT_HIGH : Z := 1.
Definition TOGGLE_LED_PERIOD : Z := 500.
Definition LED_ON_DUR_BEFORE_HIB_IN_MS : Z := 2000.
Definition CYHAL_HYSTERESIS_DISABLE : Z := 0.

(** C conversions between [bool] and integers. *)
Definition Z_of_bool (b : bool) : Z := if b then 1 else 0.
Definition bool_of_Z (z : Z) : bool := negb (z =? 0).

(** Constants and build switches that [main.c] takes from the headers of the
    HAL, the BSP and the PDL.  Their values are not part of [main.c], so they
    are parameters of the development. *)
Record platform : Type := mkPlatform {
  CY_RSLT_SUCCESS : cy_rslt_t;
  CY_SYSPM_SUCCESS : cy_rslt_t;
  CYHAL_POWER_LEVEL_LOW : cyhal_power_level_t;
  CYHAL_SYSPM_HIBERNATE_LPCOMP0_HIGH : cyhal_syspm_hibernate_source_t;
  CYBSP_LED_STATE_ON : bool;
  CYBSP_LED_STATE_OFF : bool;
  (* #if defined (CY_DEVICE_SECURE) *)
  CY_DEVICE_SECURE : bool;
  (* #ifdef TARGET_APP_CY8CKIT_062S2_43012 *)
  TARGET_APP_CY8CKIT_062S2_43012 : bool
}.

(** [cyhal_comp_config_t]: the two fields that [main.c] initialises. *)
Record cyhal_comp_config_t : Type := mkCompConfig {
  power : cyhal_power_level_t;
  hysteresis : bool
}.

(** The file-scope [myCompConfig] as its initialiser gives it. *)
Definition myCompConfig_init (P : platform) : cyhal_comp_config_t :=
  {| power := CYHAL_POWER_LEVEL_LOW P;
     hysteresis := bool_of_Z CYHAL_HYSTERESIS_DISABLE |}.

(** Console texts. *)
Definition ESC : string := String (ascii_of_nat 27) EmptyString.
Definition CR : string := String (ascii_of_nat 13) EmptyString.
Definition LF : string := String (ascii_of_nat 10) EmptyString.
Definition CRLFLF : string := (CR ++ LF ++ LF)%string.

Definition msg_clear_screen : string :=
  (ESC ++ "[2J" ++ ESC ++ "[;H")%string.
Definition msg_banner : string :=
  ("****************** " ++ "Low-power-comp-hibernate-wakeup " ++
   "****************** " ++ CRLFLF)%string.
Definition msg_normal_mode : string :=
  ("In Normal mode, blinking User LED at 500ms " ++ CRLFLF)%string.
Definition msg_entering_hibernate : string :=
  ("De-initializing IO and entering Hibernate mode, turned On User LED for 2sec "
   ++ CRLFLF)%string.
Definition msg_not_entered : string :=
  ("Not entered Hibernate mode" ++ CRLFLF)%string.

(** ** Observable platform calls *)

Inductive event : Type :=
| EvWdtInit
| EvWdtFree
| EvBspInit
| EvEnableIrq
| EvRetargetIoInit
| EvRetargetIoDeinit
| EvPrintf (s : string)
| EvCompInit (cfg : cyhal_comp_config_t)
| EvConnectULPReference
| EvUlpReferenceEnable
| EvCompSetPower (p : cyhal_power_level_t)
| EvDelayUs (us : Z)
| EvDelayMs (ms : Z)
| EvGpioInit (init_val : bool)
| EvGpioToggle
| EvGpioWrite (value : bool)
| EvSetDrivemodeHighZ
| EvCompRead (value : bool)
| EvHibernate (wakeup_source : cyhal_syspm_hibernate_source_t)
| EvHalt.

(** ** The answers of the platform *)

(** Return statuses of the calls whose outcome [main.c] cannot decide.
    [cy_retarget_io_init] and [cyhal_syspm_hibernate] may be called more than
    once; their answers are indexed by the number of earlier calls.
    [hibernate_rslt k = None] means that the [k]-th hibernate call cut the
    power and did not return. *)
Record environment : Type := mkEnv {
  wdt_init_rslt : cy_rslt_t;
  bsp_init_rslt : cy_rslt_t;
  retarget_io_init_rslt : nat -> cy_rslt_t;
  comp_init_rslt : cy_rslt_t;
  comp_set_power_rslt : cy_rslt_t;
  gpio_init_rslt : cy_rslt_t;
  hibernate_rslt : nat -> option cy_rslt_t
}.

(** ** Program state *)

Record world : Type := mkWorld {
  (* static cyhal_comp_config_t myCompConfig *)
  myCompConfig : cyhal_comp_config_t;
  (* output level of CYBSP_USER_LED; None until the pin is initialised *)
  user_led : option bool;
  (* retarget-io owns the debug UART *)
  console_up : bool;
  (* calls made so far to cy_retarget_io_init and cyhal_syspm_hibernate *)
  retarget_io_init_calls : nat;
  hibernate_calls : nat;
  (* platform calls, oldest first *)
  trace : list event
}.

Definition power_on (P : platform) : world :=
  {| myCompConfig := myCompConfig_init P;
     user_led := None;
     console_up := false;
     retarget_io_init_calls := 0%nat;
     hibernate_calls := 0%nat;
     trace := [] |}.

Definition log (e : event) (w : world) : world :=
  {| myCompConfig := myCompConfig w;
     user_led := user_led w;
     console_up := console_up w;
     retarget_io_init_calls := retarget_io_init_calls w;
     hibernate_calls := hibernate_calls w;
     trace := trace w ++ [e] |}.

Definition set_user_led (v : option bool) (w : world) : world :=
  {| myCompConfig := myCompConfig w;
     user_led := v;
     console_up := console_up w;
     retarget_io_init_calls := retarget_io_init_calls w;
     hibernate_calls := hibernate_calls w;
     trace := trace w |}.

Definition set_console_up (b : bool) (w : world) : world :=
  {| myCompConfig := myCompConfig w;
     user_led := user_led w;
     console_up := b;
     retarget_io_init_calls := retarget_io_init_calls w;
     hibernate_calls := hibernate_calls w;
     trace := trace w |}.

Definition count_retarget_io_init (w : world) : world :=
  {| myCompConfig := myCompConfig w;
     user_led := user_led w;
     console_up := console_up w;
     retarget_io_init_calls := S (retarget_io_init_calls w);
     hibernate_calls := hibernate_calls w;
     trace := trace w |}.

Definition count_hibernate (w : world) : world :=
  {| myCompConfig := myCompConfig w;
     user_led := user_led w;
     console_up := console_up w;
     retarget_io_init_calls := retarget_io_init_calls w;
     hibernate_calls := S (hibernate_calls w);
     trace := trace w |}.

(** ** The monad: state, and three ways of not returning *)

Inductive result (A : Type) : Type :=
| Returned (a : A) (w : world)   (* the call returned to its caller *)
| Halted (w : world)             (* CPU seized in an assertion trap *)
| Hibernating (w : world)        (* power cut, waiting for the wake source *)
| Polling (w : world).           (* in the loop, waiting for the next sample *)

Arguments Returned {A} a w.
Arguments Halted {A} w.
Arguments Hibernating {A} w.
Arguments Polling {A} w.

Definition M (A : Type) : Type := world -> result A.

Definition ret {A : Type} (a : A) : M A := fun w => Returned a w.

Definition bind {A B : Type} (m : M A) (k : A -> M B) : M B :=
  fun w =>
    match m w with
    | Returned a w' => k a w'
    | Halted w' => Halted w'
    | Hibernating w' => Hibernating w'
    | Polling w' => Polling w'
    end.

Declare Scope prog_scope.
Delimit Scope prog_scope with prog.
Notation "x <- m ;; k" := (bind m (fun x => k))
  (at level 61, m at next level, right associativity) : prog_scope.
Notation "m ;; k" := (bind m (fun _ => k))
  (at level 61, right associativity) : prog_scope.

Definition final_world {A : Type} (r : result A) : world :=
  match r with
  | Returned _ w | Halted w | Hibernating w | Polling w => w
  end.

Definition is_halted {A : Type} (r : result A) : bool :=
  match r with Halted _ => true | _ => false end.

Definition is_hibernating {A : Type} (r : result A) : bool :=
  match r with Hibernating _ => true | _ => false end.

Definition is_returned {A : Type} (r : result A) : bool :=
  match r with Returned _ _ => true | _ => false end.

Definition is_polling {A : Type} (r : result A) : bool :=
  match r with Polling _ => true | _ => false end.

(** A call with no result of interest: it is logged and returns. *)
Definition call (e : event) : M unit := fun w => Returned tt (log e w).

(** ** Platform calls used by [main.c] *)

Section Program.

Variable P : platform.
Variable E : environment.

Local Open Scope prog_scope.

Definition cyhal_wdt_init : M cy_rslt_t :=
  fun w => Returned (wdt_init_rslt E) (log EvWdtInit w).

Definition cyhal_wdt_free : M unit := call EvWdtFree.

Definition cybsp_init : M cy_rslt_t :=
  fun w => Returned (bsp_init_rslt E) (log EvBspInit w).

Definition __enable_irq : M unit := call EvEnableIrq.

(** The console is up after a successful initialisation; a failed one leaves
    it as it was. *)
Definition cy_retarget_io_init : M cy_rslt_t :=
  fun w =>
    let r := retarget_io_init_rslt E (retarget_io_init_calls w) in
    Returned r
      (set_console_up ((r =? CY_RSLT_SUCCESS P) || console_up w)
         (count_retarget_io_init (log EvRetargetIoInit w))).

Definition cy_retarget_io_deinit : M unit :=
  fun w => Returned tt (set_console_up false (log EvRetargetIoDeinit w)).

Definition printf (s : string) : M unit := call (EvPrintf s).

(** [cyhal_comp_init(&myComp, PIN_VINP, PIN_VINM, NC, &myCompConfig)]: the
    configuration is read through the pointer. *)
Definition cyhal_comp_init : M cy_rslt_t :=
  fun w => Returned (comp_init_rslt E) (log (EvCompInit (myCompConfig w)) w).

Definition Cy_LPComp_ConnectULPReference : M unit := call EvConnectULPReference.

Definition Cy_LPComp_UlpReferenceEnable : M unit := call EvUlpReferenceEnable.

Definition cyhal_comp_set_power (p : cyhal_power_level_t) : M cy_rslt_t :=
  fun w => Returned (comp_set_power_rslt E) (log (EvCompSetPower p) w).

Definition cyhal_system_delay_us (us : Z) : M unit := call (EvDelayUs us).

Definition cyhal_system_delay_ms (ms : Z) : M unit := call (EvDelayMs ms).

(** The pin drives its initial value once it has been configured as an
    output; a failed initialisation leaves it as it was. *)
Definition cyhal_gpio_init (init_val : bool) : M cy_rslt_t :=
  fun w =>
    let r := gpio_init_rslt E in
    Returned r
      (set_user_led (if r =? CY_RSLT_SUCCESS P then Some init_val
                     else user_led w)
         (log (EvGpioInit init_val) w)).

Definition cyhal_gpio_toggle : M unit :=
  fun w =>
    Returned tt (set_user_led (option_map negb (user_led w)) (log EvGpioToggle w)).

Definition cyhal_gpio_write (value : bool) : M unit :=
  fun w =>
    Returned tt
      (set_user_led (option_map (fun _ => value) (user_led w))
         (log (EvGpioWrite value) w)).

(** [Cy_GPIO_SetDrivemode(GPIO_PRT5, 1, CY_GPIO_DM_HIGHZ)] *)
Definition Cy_GPIO_SetDrivemode_HIGHZ : M unit := call EvSetDrivemodeHighZ.

(** [cyhal_comp_read(&myComp)]: the sample is the platform's answer. *)
Definition cyhal_comp_read (sample : bool) : M bool :=
  fun w => Returned sample (log (EvCompRead sample) w).

(** The hibernate call either cuts the power, and then nothing follows it in
    this run, or comes back with a status. *)
Definition cyhal_syspm_hibernate
    (wakeup_source : cyhal_syspm_hibernate_source_t) : M cy_rslt_t :=
  fun w =>
    let w' := count_hibernate (log (EvHibernate wakeup_source) w) in
    match hibernate_rslt E (hibernate_calls w) with
    | None => Hibernating w'
    | Some status => Returned status w'
    end.

(** Modelled from the spec: the [CY_ASSERT] macro is defined in a header that
    is not part of [main.c]; the specification calls it an assertion-style
    trap that halts execution (section 7), so a false condition seizes the
    CPU and a true one does nothing. *)
Definition CY_ASSERT (x : Z) : M unit :=
  fun w => if x =? 0 then Halted (log EvHalt w) else Returned tt w.

(** ** [lpcomp_enter_hibernate_mode] (main.c, lines 70-98) *)

Definition lpcomp_enter_hibernate_mode
    (lpcomp_wakeup_src : cyhal_syspm_hibernate_source_t) : M unit :=
  cyhal_gpio_write (CYBSP_LED_STATE_ON P) ;;
  cyhal_system_delay_ms LED_ON_DUR_BEFORE_HIB_IN_MS ;;
  cyhal_gpio_write (CYBSP_LED_STATE_OFF P) ;;
  printf msg_entering_hibernate ;;
  cy_retarget_io_deinit ;;
  (if TARGET_APP_CY8CKIT_062S2_43012 P
   then Cy_GPIO_SetDrivemode_HIGHZ
   else ret tt) ;;
  status <- cyhal_syspm_hibernate lpcomp_wakeup_src ;;
  if negb (status =? CY_SYSPM_SUCCESS P)
  then
    _ <- cy_retarget_io_init ;;
    printf msg_not_entered ;;
    CY_ASSERT 0
  else ret tt.

(** ** [main] (main.c, lines 114-196) *)

(** The body of [for (;;)], once per comparator sample.  The loop has no
    exit; when the supplied samples are used up the run is still polling. *)
Fixpoint sensing_loop (samples : list bool) : M unit :=
  match samples with
  | [] => fun w => Polling w
  | sample :: rest =>
      v <- cyhal_comp_read sample ;;
      (if MY_LPCOMP_OUTPUT_HIGH =? Z_of_bool v
       then
         cyhal_gpio_toggle ;;
         cyhal_system_delay_ms TOGGLE_LED_PERIOD ;;
         printf msg_normal_mode
       else
         lpcomp_enter_hibernate_mode (CYHAL_SYSPM_HIBERNATE_LPCOMP0_HIGH P)) ;;
      sensing_loop rest
  end.

Definition main (samples : list bool) : M unit :=
  (if CY_DEVICE_SECURE P
   then
     result <- cyhal_wdt_init ;;
     CY_ASSERT (Z_of_bool (CY_RSLT_SUCCESS P =? result)) ;;
     cyhal_wdt_free
   else ret tt) ;;
  result <- cybsp_init ;;
  (if negb (result =? CY_RSLT_SUCCESS P) then CY_ASSERT 0 else ret tt) ;;
  __enable_irq ;;
  result <- cy_retarget_io_init ;;
  (if negb (result =? CY_RSLT_SUCCESS P) then CY_ASSERT 0 else ret tt) ;;
  printf msg_clear_screen ;;
  printf msg_banner ;;
  _ <- cyhal_comp_init ;;
  Cy_LPComp_ConnectULPReference ;;
  Cy_LPComp_UlpReferenceEnable ;;
  _ <- cyhal_comp_set_power (CYHAL_POWER_LEVEL_LOW P) ;;
  cyhal_system_delay_us MY_LPCOMP_ULP_SETTLE ;;
  _ <- cyhal_gpio_init (CYBSP_LED_STATE_OFF P) ;;
  sensing_loop samples.

(** A run of the firmware from power-on (or from a wake-up reset). *)
Definition run (samples : list bool) : result unit := main samples (power_on P).

End Program.

(** A board for the concrete runs below: the success codes are 0, the user
    LED is active low, the console pin is forced to high impedance before
    hibernation.  The two enumerators are sample values. *)
Definition board : platform :=
  {| CY_RSLT_SUCCESS := 0;
     CY_SYSPM_SUCCESS := 0;
     CYHAL_POWER_LEVEL_LOW := 1;
     CYHAL_SYSPM_HIBERNATE_LPCOMP0_HIGH := 2;
     CYBSP_LED_STATE_ON := false;
     CYBSP_LED_STATE_OFF := true;
     CY_DEVICE_SECURE := false;
     TARGET_APP_CY8CKIT_062S2_43012 := true |}.

(** Every call succeeds and hibernation cuts the power. *)
Definition env_ok : environment :=
  {| wdt_init_rslt := 0;
     bsp_init_rslt := 0;
     retarget_io_init_rslt := fun _ => 0;
     comp_init_rslt := 0;
     comp_set_power_rslt := 0;
     gpio_init_rslt := 0;
     hibernate_rslt := fun _ => None |}.

(** The console comes up at start-up, the hibernate call returns a failure
    status, and the re-initialisation of the console fails as well. *)
Definition env_hibernate_fails : environment :=
  {| wdt_init_rslt := 0;
     bsp_init_rslt := 0;
     retarget_io_init_rslt := fun k => match k with O => 0 | _ => 1 end;
     comp_init_rslt := 0;
     comp_set_power_rslt := 0;
     gpio_init_rslt := 0;
     hibernate_rslt := fun _ => Some 1 |}.

(** The board comes up, the comparator initialisation reports an error. *)
Definition env_comp_init_fails : environment :=
  {| wdt_init_rslt := 0;
     bsp_init_rslt := 0;
     retarget_io_init_rslt := fun _ => 0;
     comp_init_rslt := 1;
     comp_set_power_rslt := 0;
     gpio_init_rslt := 0;
     hibernate_rslt := fun _ => None |}.

(** Board initialisation fails. *)
Definition env_bsp_fails : environment :=
  {| wdt_init_rslt := 0;
     bsp_init_rslt := 1;
     retarget_io_init_rslt := fun _ => 0;
     comp_init_rslt := 0;
     comp_set_power_rslt := 0;
     gpio_init_rslt := 0;
     hibernate_rslt := fun _ => None |}.

(** Console initialisation fails. *)
Definition env_console_fails : environment :=
  {| wdt_init_rslt := 0;
     bsp_init_rslt := 0;
     retarget_io_init_rslt := fun _ => 1;
     comp_init_rslt := 0;
     comp_set_power_rslt := 0;
     gpio_init_rslt := 0;
     hibernate_rslt := fun _ => None |}.

(** ** Event sequences of the two functions *)

(** One pass of the loop on a HIGH sample, after the sample itself. *)
Definition blink_events : list event :=
  [EvGpioToggle; EvDelayMs TOGGLE_LED_PERIOD; EvPrintf msg_normal_mode].

(** [lpcomp_enter_hibernate_mode] up to and including the hibernate call. *)
Definition hibernate_entry_events (P : platform)
    (src : cyhal_syspm_hibernate_source_t) : list event :=
  [EvGpioWrite (CYBSP_LED_STATE_ON P);
   EvDelayMs LED_ON_DUR_BEFORE_HIB_IN_MS;
   EvGpioWrite (CYBSP_LED_STATE_OFF P);
   EvPrintf msg_entering_hibernate;
   EvRetargetIoDeinit]
  ++ (if TARGET_APP_CY8CKIT_062S2_43012 P then [EvSetDrivemodeHighZ] else [])
  ++ [EvHibernate src].

(** The failure branch of [lpcomp_enter_hibernate_mode]. *)
Definition hibernate_failure_events : list event :=
  [EvRetargetIoInit; EvPrintf msg_not_entered; EvHalt].

(** [main] from its first statement to the entry of the loop. *)
Definition startup_events (P : platform) : list event :=
  (if CY_DEVICE_SECURE P then [EvWdtInit; EvWdtFree] else [])
  ++ [EvBspInit; EvEnableIrq; EvRetargetIoInit;
      EvPrintf msg_clear_screen; EvPrintf msg_banner;
      EvCompInit (myCompConfig_init P);
      EvConnectULPReference; EvUlpReferenceEnable;
      EvCompSetPower (CYHAL_POWER_LEVEL_LOW P);
      EvDelayUs MY_LPCOMP_ULP_SETTLE;
      EvGpioInit (CYBSP_LED_STATE_OFF P)].

(** The checked start-up calls succeed: the watchdog (secure devices only),
    the board and the console. *)
Definition startup_ok (P : platform) (E : environment) : Prop :=
  (CY_DEVICE_SECURE P = true -> wdt_init_rslt E = CY_RSLT_SUCCESS P) /\
  bsp_init_rslt E = CY_RSLT_SUCCESS P /\
  retarget_io_init_rslt E 0 = CY_RSLT_SUCCESS P.

(** The state in which a successful start-up enters the loop. *)
Definition at_loop_entry (P : platform) (E : environment) : world :=
  {| myCompConfig := myCompConfig_init P;
     user_led := if gpio_init_rslt E =? CY_RSLT_SUCCESS P
                 then Some (CYBSP_LED_STATE_OFF P) else None;
     console_up := true;
     retarget_io_init_calls := 1%nat;
     hibernate_calls := 0%nat;
     trace := startup_events P |}.

(** The state after one pass on a HIGH sample. *)
Definition blinked (w : world) : world :=
  {| myCompConfig := myCompConfig w;
     user_led := option_map negb (user_led w);
     console_up := console_up w;
     retarget_io_init_calls := retarget_io_init_calls w;
     hibernate_calls := hibernate_calls w;
     trace := trace w ++ EvCompRead true :: blink_events |}.

(** The state in which [lpcomp_enter_hibernate_mode] issues, and leaves, the
    hibernate call. *)
Definition torn_down (P : platform) (src : cyhal_syspm_hibernate_source_t)
    (w : world) : world :=
  {| myCompConfig := myCompConfig w;
     user_led := option_map (fun _ => CYBSP_LED_STATE_OFF P) (user_led w);
     console_up := false;
     retarget_io_init_calls := retarget_io_init_calls w;
     hibernate_calls := S (hibernate_calls w);
     trace := trace w ++ hibernate_entry_events P src |}.

(** The state in which the failure branch halts. *)
Definition seized (P : platform) (E : environment)
    (src : cyhal_syspm_hibernate_source_t) (w : world) : world :=
  {| myCompConfig := myCompConfig w;
     user_led := option_map (fun _ => CYBSP_LED_STATE_OFF P) (user_led w);
     console_up :=
       retarget_io_init_rslt E (retarget_io_init_calls w) =? CY_RSLT_SUCCESS P;
     retarget_io_init_calls := S (retarget_io_init_calls w);
     hibernate_calls := S (hibernate_calls w);
     trace := trace w ++ hibernate_entry_events P src
                      ++ hibernate_failure_events |}.

(** The state after [n] passes on HIGH samples. *)
Fixpoint blinked_times (n : nat) (w : world) : world :=
  match n with
  | O => w
  | S k => blinked_times k (blinked w)
  end.

(** What the loop can log from its entry on: passes on HIGH samples, and
    passes on LOW samples that end the run in hibernation or in the trap, or
    from which the hibernate call came back with the success status. *)
Inductive loop_events (P : platform) : list event -> Prop :=
| loop_polling :
    loop_events P []
| loop_high l :
    loop_events P l ->
    loop_events P (EvCompRead true :: blink_events ++ l)
| loop_low_hibernating :
    loop_events P
      (EvCompRead false
         :: hibernate_entry_events P (CYHAL_SYSPM_HIBERNATE_LPCOMP0_HIGH P))
| loop_low_halted :
    loop_events P
      (EvCompRead false
         :: hibernate_entry_events P (CYHAL_SYSPM_HIBERNATE_LPCOMP0_HIGH P)
         ++ hibernate_failure_events)
| loop_low_returned l :
    loop_events P l ->
    loop_events P
      (EvCompRead false
         :: hibernate_entry_events P (CYHAL_SYSPM_HIBERNATE_LPCOMP0_HIGH P)
         ++ l).

(** Calls that can precede a halt during start-up. *)
Definition startup_call (e : event) : Prop :=
  In e [EvWdtInit; EvWdtFree; EvBspInit; EvEnableIrq; EvRetargetIoInit; EvHalt].

Definition is_comp_read (e : event) : bool :=
  match e with EvCompRead _ => true | _ => false end.

Definition is_hibernate (e : event) : bool :=
  match e with EvHibernate _ => true | _ => false end.

(** Calls of the sensing loop and of the transition: comparator reads,
    indicator toggles and writes, hibernate attempts. *)
Definition is_sensing_activity (e : event) : bool :=
  match e with
  | EvCompRead _ | EvGpioToggle | EvGpioWrite _ | EvHibernate _ => true
  | _ => false
  end.

Definition count_events (f : event -> bool) (t : list event) : nat :=
  length (filter f t).

(** The wake sources passed to the hibernate call, oldest first. *)
Fixpoint wake_sources (t : list event)
    : list cyhal_syspm_hibernate_source_t :=
  match t with
  | [] => []
  | EvHibernate src :: t' => src :: wake_sources t'
  | _ :: t' => wake_sources t'
  end.

(** Modelled from the spec: [cyhal_syspm_hibernate] belongs to the HAL and is
    not part of [main.c].  The specification (sections 4.2 and 5) says that
    the call either succeeds, ending execution until the external wake, or
    reports failure synchronously with a non-success status: it never comes
    back with the success status. *)
Definition hibernate_contract (P : platform) (E : environment) : Prop :=
  forall k status,
    hibernate_rslt E k = Some status -> status <> CY_SYSPM_SUCCESS P.

Definition is_high_read (e : event) : bool :=
  match e with EvCompRead true => true | _ => false end.

(** The number of HIGH readings in a log, and the indicator level that the
    toggle-on-HIGH rule alone gives for it, from the initial OFF level. *)
Definition high_readings (t : list event) : nat := count_events is_high_read t.

Definition toggle_rule (P : platform) (t : list event) : bool :=
  Nat.iter (high_readings t) negb (CYBSP_LED_STATE_OFF P).

(** A computation that leaves the file-scope configuration record as it
    found it, however it ends. *)
Definition keeps_config {A : Type} (m : M A) : Prop :=
  forall w, myCompConfig (final_world (m w)) = myCompConfig w.

(** ** Further vocabulary for whole runs *)

Definition is_low_read (e : event) : bool :=
  match e with EvCompRead false => true | _ => false end.

Definition is_toggle (e : event) : bool :=
  match e with EvGpioToggle => true | _ => false end.

Definition is_gpio_write (e : event) : bool :=
  match e with EvGpioWrite _ => true | _ => false end.

Definition is_console_release (e : event) : bool :=
  match e with EvRetargetIoDeinit => true | _ => false end.

Definition is_halt (e : event) : bool :=
  match e with EvHalt => true | _ => false end.

Definition is_wdt_call (e : event) : bool :=
  match e with EvWdtInit | EvWdtFree => true | _ => false end.

(** The milliseconds of blocking delay requested along a log. *)
Fixpoint total_delay_ms (t : list event) : Z :=
  match t with
  | [] => 0
  | EvDelayMs ms :: t' => ms + total_delay_ms t'
  | _ :: t' => total_delay_ms t'
  end.

(** Start-up calls other than the trap. *)
Definition startup_step (e : event) : Prop :=
  In e [EvWdtInit; EvWdtFree; EvBspInit; EvEnableIrq; EvRetargetIoInit].

(** The same board built for a secure device. *)
Definition secure_board : platform :=
  {| CY_RSLT_SUCCESS := 0;
     CY_SYSPM_SUCCESS := 0;
     CYHAL_POWER_LEVEL_LOW := 1;
     CYHAL_SYSPM_HIBERNATE_LPCOMP0_HIGH := 2;
     CYBSP_LED_STATE_ON := false;
     CYBSP_LED_STATE_OFF := true;
     CY_DEVICE_SECURE := true;
     TARGET_APP_CY8CKIT_062S2_43012 := true |}.

(** The watchdog cannot be initialised. *)
Definition env_wdt_fails : environment :=
  {| wdt_init_rslt := 1;
     bsp_init_rslt := 0;
     retarget_io_init_rslt := fun _ => 0;
     comp_init_rslt := 0;
     comp_set_power_rslt := 0;
     gpio_init_rslt := 0;
     hibernate_rslt := fun _ => None |}.

(** The hibernate call comes back with the success status. *)
Definition env_hibernate_returns : environment :=
  {| wdt_init_rslt := 0;
     bsp_init_rslt := 0;
     retarget_io_init_rslt := fun _ => 0;
     comp_init_rslt := 0;
     comp_set_power_rslt := 0;
     gpio_init_rslt := 0;
     hibernate_rslt := fun _ => Some 0 |}.

(** * Properties *)

(** ** How the two functions run *)

Lemma world_eq (c1 c2 : cyhal_comp_config_t) l1 l2 u1 u2 r1 r2 h1 h2 t1 t2 :
  c1 = c2 -> l1 = l2 -> u1 = u2 -> r1 = r2 -> h1 = h2 -> t1 = t2 ->
  mkWorld c1 l1 u1 r1 h1 t1 = mkWorld c2 l2 u2 r2 h2 t2.
Proof. intros; subst; reflexivity. Qed.

Ltac list_assoc := repeat (rewrite <- app_assoc; simpl); try reflexivity.

Ltac unfold_calls :=
  unfold bind, ret, call, cyhal_wdt_init, cyhal_wdt_free, cybsp_init,
    __enable_irq, cy_retarget_io_init, cy_retarget_io_deinit, printf,
    cyhal_comp_init, Cy_LPComp_ConnectULPReference,
    Cy_LPComp_UlpReferenceEnable, cyhal_comp_set_power,
    cyhal_system_delay_us, cyhal_system_delay_ms, cyhal_gpio_init,
    cyhal_gpio_toggle, cyhal_gpio_write, Cy_GPIO_SetDrivemode_HIGHZ,
    cyhal_comp_read, cyhal_syspm_hibernate, CY_ASSERT,
    log, set_user_led, set_console_up, count_retarget_io_init,
    count_hibernate; simpl.

Section Running.

Variable P : platform.
Variable E : environment.

(** A HIGH sample: one pass, then the loop goes on. *)
Lemma sensing_loop_high (rest : list bool) (w : world) :
  sensing_loop P E (true :: rest) w = sensing_loop P E rest (blinked w).
Proof.
  simpl. unfold_calls. f_equal.
  unfold blinked, blink_events. apply world_eq; try reflexivity.
  list_assoc.
Qed.

(** The three ways in which [lpcomp_enter_hibernate_mode] ends. *)
Lemma lpcomp_enter_hibernate_mode_cases
    (src : cyhal_syspm_hibernate_source_t) (w : world) :
  lpcomp_enter_hibernate_mode P E src w =
  match hibernate_rslt E (hibernate_calls w) with
  | None => Hibernating (torn_down P src w)
  | Some status =>
      if status =? CY_SYSPM_SUCCESS P
      then Returned tt (torn_down P src w)
      else Halted (seized P E src w)
  end.
Proof.
  unfold lpcomp_enter_hibernate_mode, torn_down, seized,
    hibernate_entry_events, hibernate_failure_events.
  unfold_calls.
  destruct (TARGET_APP_CY8CKIT_062S2_43012 P); unfold_calls;
    destruct (hibernate_rslt E (hibernate_calls w)) as [status|]; simpl;
    try destruct (status =? CY_SYSPM_SUCCESS P); simpl;
    f_equal; apply world_eq; try reflexivity;
    try (destruct (user_led w); reflexivity);
    try (rewrite orb_false_r; reflexivity);
    list_assoc.
Qed.

(** A LOW sample: the transition, and the loop goes on only if it returns. *)
Lemma sensing_loop_low (rest : list bool) (w : world) :
  sensing_loop P E (false :: rest) w =
  let w1 := log (EvCompRead false) w in
  let src := CYHAL_SYSPM_HIBERNATE_LPCOMP0_HIGH P in
  match hibernate_rslt E (hibernate_calls w) with
  | None => Hibernating (torn_down P src w1)
  | Some status =>
      if status =? CY_SYSPM_SUCCESS P
      then sensing_loop P E rest (torn_down P src w1)
      else Halted (seized P E src w1)
  end.
Proof.
  cbn [sensing_loop]. unfold bind at 1. unfold cyhal_comp_read.
  cbn [Z_of_bool MY_LPCOMP_OUTPUT_HIGH Z.eqb Pos.eqb].
  unfold bind at 1. rewrite lpcomp_enter_hibernate_mode_cases.
  cbn [log hibernate_calls].
  destruct (hibernate_rslt E (hibernate_calls w)) as [status|];
    [destruct (status =? CY_SYSPM_SUCCESS P) |]; reflexivity.
Qed.

Lemma sensing_loop_highs (n : nat) (rest : list bool) (w : world) :
  sensing_loop P E (repeat true n ++ rest) w =
  sensing_loop P E rest (blinked_times n w).
Proof.
  revert w. induction n as [|n IH]; intros w; [reflexivity|].
  cbn [repeat app blinked_times]. rewrite sensing_loop_high. apply IH.
Qed.

Lemma trace_blinked_times (n : nat) (w : world) :
  trace (blinked_times n w) =
  trace w ++ List.concat (repeat (EvCompRead true :: blink_events) n).
Proof.
  revert w. induction n as [|n IH]; intros w; cbn [blinked_times repeat List.concat].
  - now rewrite app_nil_r.
  - rewrite IH. cbn [blinked trace]. now rewrite <- app_assoc.
Qed.

Lemma user_led_blinked_times (n : nat) (w : world) :
  user_led (blinked_times n w) = option_map (Nat.iter n negb) (user_led w).
Proof.
  revert w. induction n as [|n IH]; intros w; cbn [blinked_times].
  - now destruct (user_led w).
  - rewrite IH. cbn [blinked user_led].
    destruct (user_led w) as [b|]; cbn [option_map]; [| reflexivity].
    now rewrite Nat.iter_succ_r.
Qed.

Lemma hibernate_calls_blinked_times (n : nat) (w : world) :
  hibernate_calls (blinked_times n w) = hibernate_calls w.
Proof.
  revert w. induction n as [|n IH]; intros w; cbn [blinked_times];
    [reflexivity | now rewrite IH].
Qed.

Lemma retarget_io_init_calls_blinked_times (n : nat) (w : world) :
  retarget_io_init_calls (blinked_times n w) = retarget_io_init_calls w.
Proof.
  revert w. induction n as [|n IH]; intros w; cbn [blinked_times];
    [reflexivity | now rewrite IH].
Qed.

(** Whatever the samples and the platform's answers, the loop extends the
    trace by a sequence of whole passes. *)
Lemma sensing_loop_events (samples : list bool) (w : world) :
  exists l,
    trace (final_world (sensing_loop P E samples w)) = trace w ++ l /\
    loop_events P l.
Proof.
  revert w. induction samples as [|sample rest IH]; intros w.
  - exists []. split; [now rewrite app_nil_r | constructor].
  - destruct sample.
    + rewrite sensing_loop_high.
      destruct (IH (blinked w)) as (l & Hl & Hev).
      exists (EvCompRead true :: blink_events ++ l). split.
      * rewrite Hl. cbn [blinked trace]. list_assoc.
      * now constructor.
    + rewrite sensing_loop_low. cbv zeta.
      destruct (hibernate_rslt E (hibernate_calls w)) as [status|].
      * destruct (status =? CY_SYSPM_SUCCESS P).
        -- destruct (IH (torn_down P (CYHAL_SYSPM_HIBERNATE_LPCOMP0_HIGH P)
                           (log (EvCompRead false) w))) as (l & Hl & Hev).
           eexists. split; [| apply loop_low_returned; exact Hev].
           rewrite Hl. cbn [torn_down log trace].
           repeat rewrite <- app_assoc. reflexivity.
        -- eexists. split; [| apply loop_low_halted].
           cbn [final_world seized log trace].
           repeat rewrite <- app_assoc. reflexivity.
      * eexists. split; [| apply loop_low_hibernating].
        cbn [final_world torn_down log trace].
        repeat rewrite <- app_assoc. reflexivity.
Qed.

(** When the checked start-up calls succeed, [main] reaches the loop. *)
Lemma run_startup_ok (samples : list bool) :
  startup_ok P E ->
  run P E samples = sensing_loop P E samples (at_loop_entry P E).
Proof.
  intros (Hwdt & Hbsp & Hrio).
  unfold run, main, power_on, at_loop_entry, startup_events.
  destruct (CY_DEVICE_SECURE P); unfold_calls.
  - rewrite (Hwdt eq_refl), Z.eqb_refl; simpl.
    rewrite Hbsp, Z.eqb_refl; simpl.
    rewrite Hrio, Z.eqb_refl; simpl.
    destruct (gpio_init_rslt E =? CY_RSLT_SUCCESS P); reflexivity.
  - rewrite Hbsp, Z.eqb_refl; simpl.
    rewrite Hrio, Z.eqb_refl; simpl.
    destruct (gpio_init_rslt E =? CY_RSLT_SUCCESS P); reflexivity.
Qed.

(** When one of them fails, [main] halts with start-up calls only, whatever
    the comparator would have read. *)
Lemma run_startup_failed (samples : list bool) :
  ~ startup_ok P E ->
  is_halted (run P E samples) = true /\
  Forall startup_call (trace (final_world (run P E samples))).
Proof.
  intros Hno. unfold startup_ok in Hno.
  unfold run, main, power_on, startup_call.
  destruct (CY_DEVICE_SECURE P); unfold_calls.
  - destruct (Z.eqb_spec (CY_RSLT_SUCCESS P) (wdt_init_rslt E)) as [Hw|Hw];
      simpl; [| split; [reflexivity | repeat constructor; simpl; tauto]].
    destruct (Z.eqb_spec (bsp_init_rslt E) (CY_RSLT_SUCCESS P)) as [Hb|Hb];
      simpl; [| split; [reflexivity | repeat constructor; simpl; tauto]].
    destruct (Z.eqb_spec (retarget_io_init_rslt E 0) (CY_RSLT_SUCCESS P))
      as [Hr|Hr];
      simpl; [| split; [reflexivity | repeat constructor; simpl; tauto]].
    exfalso. apply Hno. repeat split; auto.
  - destruct (Z.eqb_spec (bsp_init_rslt E) (CY_RSLT_SUCCESS P)) as [Hb|Hb];
      simpl; [| split; [reflexivity | repeat constructor; simpl; tauto]].
    destruct (Z.eqb_spec (retarget_io_init_rslt E 0) (CY_RSLT_SUCCESS P))
      as [Hr|Hr];
      simpl; [| split; [reflexivity | repeat constructor; simpl; tauto]].
    exfalso. apply Hno. repeat split; auto. discriminate.
Qed.

End Running.

(** ** Counting events *)

Lemma count_events_app (f : event -> bool) (t1 t2 : list event) :
  count_events f (t1 ++ t2) = (count_events f t1 + count_events f t2)%nat.
Proof. unfold count_events. now rewrite filter_app, length_app. Qed.

Lemma count_events_blinks (f : event -> bool) (n : nat) :
  count_events f (List.concat (repeat (EvCompRead true :: blink_events) n)) =
  (n * count_events f (EvCompRead true :: blink_events))%nat.
Proof.
  induction n as [|n IH]; [reflexivity|].
  cbn [repeat List.concat]. rewrite count_events_app, IH. reflexivity.
Qed.

Lemma count_reads_startup (P : platform) :
  count_events is_comp_read (startup_events P) = 0%nat.
Proof. unfold startup_events. now destruct (CY_DEVICE_SECURE P). Qed.

Lemma count_hibernates_startup (P : platform) :
  count_events is_hibernate (startup_events P) = 0%nat.
Proof. unfold startup_events. now destruct (CY_DEVICE_SECURE P). Qed.

Lemma count_reads_entry (P : platform) src :
  count_events is_comp_read (hibernate_entry_events P src) = 0%nat.
Proof.
  unfold hibernate_entry_events.
  now destruct (TARGET_APP_CY8CKIT_062S2_43012 P).
Qed.

Lemma count_hibernates_entry (P : platform) src :
  count_events is_hibernate (hibernate_entry_events P src) = 1%nat.
Proof.
  unfold hibernate_entry_events.
  now destruct (TARGET_APP_CY8CKIT_062S2_43012 P).
Qed.

Lemma startup_ok_board_env_ok : startup_ok board env_ok.
Proof. repeat split. Defined.

Lemma startup_ok_board_env_hibernate_fails :
  startup_ok board env_hibernate_fails.
Proof. repeat split. Defined.

(** ** The transition on the first LOW reading *)

(** C1. In every run that reaches the loop, [n] HIGH readings followed by a
    LOW reading give, right after the LOW reading and in this order: the
    indicator written ON, a delay of 2000 ms, the indicator written OFF, the
    announcement on the console, the console released, on the kit that needs
    it the console pin set to high impedance, and the hibernate call with
    the wake source [CYHAL_SYSPM_HIBERNATE_LPCOMP0_HIGH].  Nothing else is
    logged in between; the requested delay is at least 2000 ms. *)
Theorem first_low_reading_sequence
    (P : platform) (E : environment) (n : nat) (rest : list bool) :
  startup_ok P E ->
  exists after,
    trace (final_world (run P E (repeat true n ++ false :: rest))) =
      startup_events P
      ++ List.concat (repeat (EvCompRead true :: blink_events) n)
      ++ EvCompRead false
      :: [EvGpioWrite (CYBSP_LED_STATE_ON P);
          EvDelayMs LED_ON_DUR_BEFORE_HIB_IN_MS;
          EvGpioWrite (CYBSP_LED_STATE_OFF P);
          EvPrintf msg_entering_hibernate;
          EvRetargetIoDeinit]
      ++ (if TARGET_APP_CY8CKIT_062S2_43012 P
          then [EvSetDrivemodeHighZ] else [])
      ++ [EvHibernate (CYHAL_SYSPM_HIBERNATE_LPCOMP0_HIGH P)]
      ++ after
    /\ 2000 <= LED_ON_DUR_BEFORE_HIB_IN_MS.
Proof.
  intros Hok.
  rewrite (run_startup_ok P E _ Hok), sensing_loop_highs, sensing_loop_low.
  cbv zeta.
  set (w := blinked_times n (at_loop_entry P E)).
  assert (Hw : trace w = startup_events P
            ++ List.concat (repeat (EvCompRead true :: blink_events) n))
    by (unfold w; now rewrite trace_blinked_times).
  destruct (hibernate_rslt E (hibernate_calls w)) as [status|].
  - destruct (status =? CY_SYSPM_SUCCESS P).
    + destruct (sensing_loop_events P E rest
                  (torn_down P (CYHAL_SYSPM_HIBERNATE_LPCOMP0_HIGH P)
                     (log (EvCompRead false) w))) as (l & Hl & _).
      exists l. split; [| unfold LED_ON_DUR_BEFORE_HIB_IN_MS; lia].
      rewrite Hl. cbn [torn_down log trace]. rewrite Hw.
      unfold hibernate_entry_events.
      repeat rewrite <- app_assoc. reflexivity.
    + exists hibernate_failure_events.
      split; [| unfold LED_ON_DUR_BEFORE_HIB_IN_MS; lia].
      cbn [final_world seized log trace]. rewrite Hw.
      unfold hibernate_entry_events.
      repeat rewrite <- app_assoc. reflexivity.
  - exists [].
    split; [| unfold LED_ON_DUR_BEFORE_HIB_IN_MS; lia].
    cbn [final_world torn_down log trace]. rewrite Hw.
    unfold hibernate_entry_events.
    repeat rewrite <- app_assoc. reflexivity.
Qed.

Lemma first_low_reading_sequence_witness :
  startup_ok board env_ok /\
  exists after,
    trace (final_world (run board env_ok (repeat true 2 ++ false :: [true]))) =
      startup_events board
      ++ List.concat (repeat (EvCompRead true :: blink_events) 2)
      ++ EvCompRead false
      :: [EvGpioWrite (CYBSP_LED_STATE_ON board);
          EvDelayMs LED_ON_DUR_BEFORE_HIB_IN_MS;
          EvGpioWrite (CYBSP_LED_STATE_OFF board);
          EvPrintf msg_entering_hibernate;
          EvRetargetIoDeinit]
      ++ (if TARGET_APP_CY8CKIT_062S2_43012 board
          then [EvSetDrivemodeHighZ] else [])
      ++ [EvHibernate (CYHAL_SYSPM_HIBERNATE_LPCOMP0_HIGH board)]
      ++ after
    /\ 2000 <= LED_ON_DUR_BEFORE_HIB_IN_MS.
Proof.
  split.
  - exact startup_ok_board_env_ok.
  - exact (first_low_reading_sequence board env_ok 2 [true]
             startup_ok_board_env_ok).
Defined.

(** ** The failure branch *)

(** The failure branch from any state in which the transition is entered:
    the trap is reached, the log is the entry sequence followed by the
    console re-initialisation, the message and the trap, and the console is
    up exactly when its re-initialisation succeeded. *)
Lemma lpcomp_enter_hibernate_mode_failure
    (P : platform) (E : environment)
    (src : cyhal_syspm_hibernate_source_t) (w : world) (status : cy_rslt_t) :
  hibernate_rslt E (hibernate_calls w) = Some status ->
  status <> CY_SYSPM_SUCCESS P ->
  lpcomp_enter_hibernate_mode P E src w = Halted (seized P E src w).
Proof.
  intros Hh Hs. rewrite lpcomp_enter_hibernate_mode_cases, Hh.
  destruct (Z.eqb_spec status (CY_SYSPM_SUCCESS P)); [contradiction|reflexivity].
Qed.

(** C2. When the hibernate call made on the first LOW reading returns a
    status other than success, the run ends in the trap; after the hibernate
    call the log holds exactly the console re-initialisation, then the fatal
    message, then the trap.  The comparator has been read [n + 1] times,
    whatever samples were still to come, and the hibernate call was made
    once. *)
Theorem hibernate_failure_halts
    (P : platform) (E : environment) (n : nat) (rest : list bool)
    (status : cy_rslt_t) :
  startup_ok P E ->
  hibernate_rslt E 0 = Some status ->
  status <> CY_SYSPM_SUCCESS P ->
  let r := run P E (repeat true n ++ false :: rest) in
  is_halted r = true /\
  trace (final_world r) =
    startup_events P
    ++ List.concat (repeat (EvCompRead true :: blink_events) n)
    ++ EvCompRead false
    :: hibernate_entry_events P (CYHAL_SYSPM_HIBERNATE_LPCOMP0_HIGH P)
    ++ [EvRetargetIoInit; EvPrintf msg_not_entered; EvHalt] /\
  count_events is_comp_read (trace (final_world r)) = S n /\
  count_events is_hibernate (trace (final_world r)) = 1%nat.
Proof.
  intros Hok Hh Hs r.
  assert (Hr : r = Halted
            (seized P E (CYHAL_SYSPM_HIBERNATE_LPCOMP0_HIGH P)
               (log (EvCompRead false)
                  (blinked_times n (at_loop_entry P E))))).
  { unfold r.
    rewrite (run_startup_ok P E _ Hok), sensing_loop_highs, sensing_loop_low.
    cbv zeta. rewrite hibernate_calls_blinked_times.
    cbn [at_loop_entry hibernate_calls]. rewrite Hh.
    destruct (Z.eqb_spec status (CY_SYSPM_SUCCESS P));
      [contradiction | reflexivity]. }
  assert (Ht : trace (final_world r) =
            startup_events P
            ++ List.concat (repeat (EvCompRead true :: blink_events) n)
            ++ EvCompRead false
            :: hibernate_entry_events P (CYHAL_SYSPM_HIBERNATE_LPCOMP0_HIGH P)
            ++ [EvRetargetIoInit; EvPrintf msg_not_entered; EvHalt]).
  { rewrite Hr. cbn [final_world seized log trace].
    rewrite trace_blinked_times. cbn [at_loop_entry trace].
    unfold hibernate_failure_events.
    repeat rewrite <- app_assoc. reflexivity. }
  split; [now rewrite Hr|]. split; [exact Ht|].
  rewrite Ht.
  change (EvCompRead false
          :: hibernate_entry_events P (CYHAL_SYSPM_HIBERNATE_LPCOMP0_HIGH P)
          ++ [EvRetargetIoInit; EvPrintf msg_not_entered; EvHalt])
    with ([EvCompRead false]
          ++ hibernate_entry_events P (CYHAL_SYSPM_HIBERNATE_LPCOMP0_HIGH P)
          ++ [EvRetargetIoInit; EvPrintf msg_not_entered; EvHalt]).
  rewrite !count_events_app, !count_events_blinks.
  rewrite count_reads_startup, count_hibernates_startup,
    count_reads_entry, count_hibernates_entry.
  cbn. split; lia.
Qed.

Lemma hibernate_failure_halts_witness :
  startup_ok board env_hibernate_fails /\
  hibernate_rslt env_hibernate_fails 0 = Some 1 /\
  1 <> CY_SYSPM_SUCCESS board /\
  let r := run board env_hibernate_fails (repeat true 1 ++ false :: [true]) in
  is_halted r = true /\
  trace (final_world r) =
    startup_events board
    ++ List.concat (repeat (EvCompRead true :: blink_events) 1)
    ++ EvCompRead false
    :: hibernate_entry_events board (CYHAL_SYSPM_HIBERNATE_LPCOMP0_HIGH board)
    ++ [EvRetargetIoInit; EvPrintf msg_not_entered; EvHalt] /\
  count_events is_comp_read (trace (final_world r)) = 2%nat /\
  count_events is_hibernate (trace (final_world r)) = 1%nat.
Proof.
  assert (H1 : hibernate_rslt env_hibernate_fails 0 = Some 1) by reflexivity.
  assert (H2 : 1 <> CY_SYSPM_SUCCESS board) by (simpl; lia).
  split; [exact startup_ok_board_env_hibernate_fails|].
  split; [exact H1|]. split; [exact H2|].
  exact (hibernate_failure_halts board env_hibernate_fails 1 [true] 1
           startup_ok_board_env_hibernate_fails H1 H2).
Defined.

(** C10. In the failure branch the status of the console re-initialisation
    is not looked at: whatever [cy_retarget_io_init] answers, the fatal
    message is printed and the trap is reached.  The console is up at the
    trap exactly when that answer was the success code. *)
Theorem console_reinit_status_unchecked
    (P : platform) (E : environment)
    (src : cyhal_syspm_hibernate_source_t) (w : world) (status : cy_rslt_t) :
  hibernate_rslt E (hibernate_calls w) = Some status ->
  status <> CY_SYSPM_SUCCESS P ->
  let r := lpcomp_enter_hibernate_mode P E src w in
  is_halted r = true /\
  trace (final_world r) =
    trace w ++ hibernate_entry_events P src
    ++ [EvRetargetIoInit; EvPrintf msg_not_entered; EvHalt] /\
  console_up (final_world r) =
    (retarget_io_init_rslt E (retarget_io_init_calls w) =? CY_RSLT_SUCCESS P).
Proof.
  intros Hh Hs r. unfold r.
  rewrite (lpcomp_enter_hibernate_mode_failure P E src w status Hh Hs).
  repeat split.
Qed.

Lemma console_reinit_status_unchecked_witness :
  hibernate_rslt env_hibernate_fails
    (hibernate_calls (at_loop_entry board env_hibernate_fails)) = Some 1 /\
  1 <> CY_SYSPM_SUCCESS board /\
  let r := lpcomp_enter_hibernate_mode board env_hibernate_fails 2
             (at_loop_entry board env_hibernate_fails) in
  is_halted r = true /\
  trace (final_world r) =
    trace (at_loop_entry board env_hibernate_fails)
    ++ hibernate_entry_events board 2
    ++ [EvRetargetIoInit; EvPrintf msg_not_entered; EvHalt] /\
  console_up (final_world r) =
    (retarget_io_init_rslt env_hibernate_fails
       (retarget_io_init_calls (at_loop_entry board env_hibernate_fails))
     =? CY_RSLT_SUCCESS board).
Proof.
  assert (H1 : hibernate_rslt env_hibernate_fails
            (hibernate_calls (at_loop_entry board env_hibernate_fails))
          = Some 1) by reflexivity.
  assert (H2 : 1 <> CY_SYSPM_SUCCESS board) by (simpl; lia).
  split; [exact H1|]. split; [exact H2|].
  exact (console_reinit_status_unchecked board env_hibernate_fails 2
           (at_loop_entry board env_hibernate_fails) 1 H1 H2).
Defined.

(** ** No return from the transition *)

Lemma count_reads_failure :
  count_events is_comp_read hibernate_failure_events = 0%nat.
Proof. reflexivity. Qed.

(** C5. On a platform whose hibernate call never comes back with the success
    status, [lpcomp_enter_hibernate_mode] never returns to its caller: from
    every state it ends in hibernation or in the trap.  So a run that reaches
    the loop ends at its first LOW reading: it is hibernating or halted, the
    samples after that reading play no part, and the comparator has been read
    [n + 1] times. *)
Theorem transition_never_returns
    (P : platform) (E : environment)
    (src : cyhal_syspm_hibernate_source_t) (w : world)
    (n : nat) (rest : list bool) :
  hibernate_contract P E ->
  startup_ok P E ->
  let t := lpcomp_enter_hibernate_mode P E src w in
  let r := run P E (repeat true n ++ false :: rest) in
  (is_returned t = false /\
   (is_hibernating t = true \/ is_halted t = true)) /\
  (is_hibernating r = true \/ is_halted r = true) /\
  r = run P E (repeat true n ++ [false]) /\
  count_events is_comp_read (trace (final_world r)) = S n.
Proof.
  intros Hc Hok t r. split.
  - unfold t. rewrite lpcomp_enter_hibernate_mode_cases.
    destruct (hibernate_rslt E (hibernate_calls w)) as [status|] eqn:Hh.
    + destruct (Z.eqb_spec status (CY_SYSPM_SUCCESS P)) as [Heq|Hne].
      * exfalso. exact (Hc _ _ Hh Heq).
      * split; [reflexivity | right; reflexivity].
    + split; [reflexivity | left; reflexivity].
  - unfold r.
    rewrite !(run_startup_ok P E _ Hok), !sensing_loop_highs, !sensing_loop_low.
    cbv zeta.
    set (w0 := blinked_times n (at_loop_entry P E)).
    assert (Hw0 : count_events is_comp_read (trace w0) = n).
    { unfold w0. rewrite trace_blinked_times. cbn [at_loop_entry trace].
      rewrite count_events_app, count_events_blinks, count_reads_startup.
      cbn. lia. }
    destruct (hibernate_rslt E (hibernate_calls w0)) as [status|] eqn:Hh.
    + destruct (Z.eqb_spec status (CY_SYSPM_SUCCESS P)) as [Heq|Hne].
      * exfalso. exact (Hc _ _ Hh Heq).
      * split; [right; reflexivity|]. split; [reflexivity|].
        cbn [final_world seized log trace].
        rewrite !count_events_app, Hw0, count_reads_entry, count_reads_failure.
        cbn. lia.
    + split; [left; reflexivity|]. split; [reflexivity|].
      cbn [final_world torn_down log trace].
      rewrite !count_events_app, Hw0, count_reads_entry. cbn. lia.
Qed.

Lemma hibernate_contract_env_hibernate_fails :
  hibernate_contract board env_hibernate_fails.
Proof. intros k status H. injection H as <-. simpl. lia. Defined.

Lemma transition_never_returns_witness :
  hibernate_contract board env_hibernate_fails /\
  startup_ok board env_hibernate_fails /\
  let t := lpcomp_enter_hibernate_mode board env_hibernate_fails 2
             (at_loop_entry board env_hibernate_fails) in
  let r := run board env_hibernate_fails (repeat true 3 ++ false :: [true]) in
  (is_returned t = false /\
   (is_hibernating t = true \/ is_halted t = true)) /\
  (is_hibernating r = true \/ is_halted r = true) /\
  r = run board env_hibernate_fails (repeat true 3 ++ [false]) /\
  count_events is_comp_read (trace (final_world r)) = 4%nat.
Proof.
  split; [exact hibernate_contract_env_hibernate_fails|].
  split; [exact startup_ok_board_env_hibernate_fails|].
  exact (transition_never_returns board env_hibernate_fails 2
           (at_loop_entry board env_hibernate_fails) 3 [true]
           hibernate_contract_env_hibernate_fails
           startup_ok_board_env_hibernate_fails).
Defined.

(** Without that contract the source does return: when the hibernate call
    answers the success status, the [if] is skipped, the function ends and
    the caller's loop takes the next sample. *)
Lemma lpcomp_enter_hibernate_mode_returns_on_success
    (P : platform) (E : environment)
    (src : cyhal_syspm_hibernate_source_t) (w : world) :
  hibernate_rslt E (hibernate_calls w) = Some (CY_SYSPM_SUCCESS P) ->
  lpcomp_enter_hibernate_mode P E src w = Returned tt (torn_down P src w).
Proof.
  intros Hh. rewrite lpcomp_enter_hibernate_mode_cases, Hh.
  now rewrite Z.eqb_refl.
Qed.

(** ** Start-up failures *)

Lemma startup_call_no_sensing (e : event) :
  startup_call e -> is_sensing_activity e = false.
Proof.
  unfold startup_call. cbn [In].
  intros [<-|[<-|[<-|[<-|[<-|[<-|[]]]]]]]; reflexivity.
Qed.

(** C6. When board initialisation fails, or when console initialisation
    fails, the run ends in the trap and its log holds no comparator read, no
    indicator toggle or write and no hibernate call, whatever the comparator
    would have read. *)
Theorem startup_failure_halts_before_sensing
    (P : platform) (E : environment) (samples : list bool) :
  bsp_init_rslt E <> CY_RSLT_SUCCESS P \/
  retarget_io_init_rslt E 0 <> CY_RSLT_SUCCESS P ->
  let r := run P E samples in
  is_halted r = true /\
  Forall (fun e => is_sensing_activity e = false) (trace (final_world r)).
Proof.
  intros Hfail r.
  assert (Hno : ~ startup_ok P E).
  { intros (_ & Hb & Hr). destruct Hfail; contradiction. }
  destruct (run_startup_failed P E samples Hno) as (Hh & Ht).
  split; [exact Hh|].
  eapply Forall_impl; [| exact Ht]. exact startup_call_no_sensing.
Qed.

Lemma startup_failure_halts_before_sensing_witness :
  (bsp_init_rslt env_bsp_fails <> CY_RSLT_SUCCESS board /\
   let r := run board env_bsp_fails [true; false] in
   is_halted r = true /\
   Forall (fun e => is_sensing_activity e = false) (trace (final_world r))) /\
  (retarget_io_init_rslt env_console_fails 0 <> CY_RSLT_SUCCESS board /\
   let r := run board env_console_fails [true; false] in
   is_halted r = true /\
   Forall (fun e => is_sensing_activity e = false) (trace (final_world r))).
Proof.
  assert (H1 : bsp_init_rslt env_bsp_fails <> CY_RSLT_SUCCESS board)
    by (simpl; lia).
  assert (H2 : retarget_io_init_rslt env_console_fails 0
               <> CY_RSLT_SUCCESS board) by (simpl; lia).
  split; split; [exact H1 | | exact H2 |].
  - exact (startup_failure_halts_before_sensing board env_bsp_fails
             [true; false] (or_introl H1)).
  - exact (startup_failure_halts_before_sensing board env_console_fails
             [true; false] (or_intror H2)).
Defined.

(** C7, as the code behaves: the status of [cyhal_comp_init] is discarded.
    With the board and the console up and the comparator initialisation
    reporting an error, no trap is taken: the run enters the loop, reads the
    comparator and blinks. *)
Theorem comp_init_failure_not_trapped :
  startup_ok board env_comp_init_fails /\
  comp_init_rslt env_comp_init_fails <> CY_RSLT_SUCCESS board /\
  let r := run board env_comp_init_fails [true] in
  is_halted r = false /\
  is_polling r = true /\
  trace (final_world r) =
    startup_events board ++ EvCompRead true :: blink_events.
Proof.
  split; [repeat split|]. split; [simpl; lia|].
  repeat split.
Qed.

(** ** The wake source *)

Lemma wake_sources_app (t1 t2 : list event) :
  wake_sources (t1 ++ t2) = wake_sources t1 ++ wake_sources t2.
Proof.
  induction t1 as [|e t1 IH]; [reflexivity|].
  destruct e; cbn [app wake_sources]; now rewrite ?IH.
Qed.

Lemma wake_sources_startup_calls (t : list event) :
  Forall startup_call t -> wake_sources t = [].
Proof.
  induction 1 as [|e t He _ IH]; [reflexivity|].
  unfold startup_call in He. cbn [In] in He.
  destruct He as [<-|[<-|[<-|[<-|[<-|[<-|[]]]]]]]; exact IH.
Qed.

Lemma wake_sources_startup (P : platform) :
  wake_sources (startup_events P) = [].
Proof. unfold startup_events. now destruct (CY_DEVICE_SECURE P). Qed.

Lemma wake_sources_entry (P : platform) src :
  wake_sources (hibernate_entry_events P src) = [src].
Proof.
  unfold hibernate_entry_events.
  now destruct (TARGET_APP_CY8CKIT_062S2_43012 P).
Qed.

Lemma wake_sources_loop (P : platform) (l : list event) :
  loop_events P l ->
  Forall (eq (CYHAL_SYSPM_HIBERNATE_LPCOMP0_HIGH P)) (wake_sources l).
Proof.
  induction 1 as [|l _ IH| | |l _ IH].
  - constructor.
  - exact IH.
  - cbn [wake_sources]. rewrite wake_sources_entry. now repeat constructor.
  - cbn [wake_sources]. rewrite wake_sources_app, wake_sources_entry.
    now repeat constructor.
  - cbn [wake_sources]. rewrite wake_sources_app, wake_sources_entry.
    now constructor.
Qed.

Lemma startup_ok_dec (P : platform) (E : environment) :
  {startup_ok P E} + {~ startup_ok P E}.
Proof.
  unfold startup_ok.
  destruct (Z.eq_dec (bsp_init_rslt E) (CY_RSLT_SUCCESS P));
    [| right; tauto].
  destruct (Z.eq_dec (retarget_io_init_rslt E 0) (CY_RSLT_SUCCESS P));
    [| right; tauto].
  destruct (CY_DEVICE_SECURE P).
  - destruct (Z.eq_dec (wdt_init_rslt E) (CY_RSLT_SUCCESS P));
      [left; tauto | right; intros (H & _); auto].
  - left. repeat split; auto. discriminate.
Qed.

(** C3. In every run, whatever the platform answers and whatever the
    comparator reads, each hibernate call of the log was made with the wake
    source [CYHAL_SYSPM_HIBERNATE_LPCOMP0_HIGH]; and one execution of the
    transition passes on exactly the one wake source it was given. *)
Theorem only_lpcomp0_high_wake_source
    (P : platform) (E : environment) (samples : list bool)
    (src : cyhal_syspm_hibernate_source_t) (w : world) :
  Forall (eq (CYHAL_SYSPM_HIBERNATE_LPCOMP0_HIGH P))
    (wake_sources (trace (final_world (run P E samples)))) /\
  wake_sources (trace (final_world (lpcomp_enter_hibernate_mode P E src w))) =
    wake_sources (trace w) ++ [src].
Proof.
  split.
  - destruct (startup_ok_dec P E) as [Hok|Hno].
    + rewrite (run_startup_ok P E _ Hok).
      destruct (sensing_loop_events P E samples (at_loop_entry P E))
        as (l & Hl & Hev).
      rewrite Hl. cbn [at_loop_entry trace].
      rewrite wake_sources_app, wake_sources_startup.
      exact (wake_sources_loop P l Hev).
    + destruct (run_startup_failed P E samples Hno) as (_ & Ht).
      rewrite (wake_sources_startup_calls _ Ht). constructor.
  - rewrite lpcomp_enter_hibernate_mode_cases.
    destruct (hibernate_rslt E (hibernate_calls w)) as [status|];
      [destruct (status =? CY_SYSPM_SUCCESS P) |];
      cbn [final_world torn_down seized trace];
      rewrite ?wake_sources_app, wake_sources_entry;
      cbn [hibernate_failure_events wake_sources];
      now rewrite ?app_nil_r.
Qed.

(** ** The configuration record *)

Lemma keeps_config_ret {A : Type} (a : A) : keeps_config (ret a).
Proof. intros w. reflexivity. Qed.

Lemma keeps_config_bind {A B : Type} (m : M A) (k : A -> M B) :
  keeps_config m -> (forall a, keeps_config (k a)) -> keeps_config (bind m k).
Proof.
  intros Hm Hk w. unfold bind. specialize (Hm w).
  destruct (m w) as [a w'| | |]; cbn [final_world] in *; try exact Hm.
  now rewrite Hk.
Qed.

Lemma keeps_config_if {A : Type} (b : bool) (m1 m2 : M A) :
  keeps_config m1 -> keeps_config m2 ->
  keeps_config (if b then m1 else m2).
Proof. now destruct b. Qed.

Lemma keeps_config_call (e : event) : keeps_config (call e).
Proof. intros w. reflexivity. Qed.

Section KeepsConfig.

Variable P : platform.
Variable E : environment.

Lemma keeps_config_cyhal_wdt_init : keeps_config (cyhal_wdt_init E).
Proof. intros w. reflexivity. Qed.

Lemma keeps_config_cybsp_init : keeps_config (cybsp_init E).
Proof. intros w. reflexivity. Qed.

Lemma keeps_config_cy_retarget_io_init : keeps_config (cy_retarget_io_init P E).
Proof. intros w. reflexivity. Qed.

Lemma keeps_config_cy_retarget_io_deinit : keeps_config cy_retarget_io_deinit.
Proof. intros w. reflexivity. Qed.

Lemma keeps_config_cyhal_comp_init : keeps_config (cyhal_comp_init E).
Proof. intros w. reflexivity. Qed.

Lemma keeps_config_cyhal_comp_set_power p :
  keeps_config (cyhal_comp_set_power E p).
Proof. intros w. reflexivity. Qed.

Lemma keeps_config_cyhal_gpio_init v : keeps_config (cyhal_gpio_init P E v).
Proof. intros w. reflexivity. Qed.

Lemma keeps_config_cyhal_gpio_toggle : keeps_config cyhal_gpio_toggle.
Proof. intros w. reflexivity. Qed.

Lemma keeps_config_cyhal_gpio_write v : keeps_config (cyhal_gpio_write v).
Proof. intros w. reflexivity. Qed.

Lemma keeps_config_cyhal_comp_read v : keeps_config (cyhal_comp_read v).
Proof. intros w. reflexivity. Qed.

Lemma keeps_config_cyhal_syspm_hibernate src :
  keeps_config (cyhal_syspm_hibernate E src).
Proof.
  intros w. unfold cyhal_syspm_hibernate.
  now destruct (hibernate_rslt E (hibernate_calls w)).
Qed.

Lemma keeps_config_CY_ASSERT x : keeps_config (CY_ASSERT x).
Proof. intros w. unfold CY_ASSERT. now destruct (x =? 0). Qed.

#[local] Hint Resolve keeps_config_ret keeps_config_call
  keeps_config_cyhal_wdt_init keeps_config_cybsp_init
  keeps_config_cy_retarget_io_init keeps_config_cy_retarget_io_deinit
  keeps_config_cyhal_comp_init keeps_config_cyhal_comp_set_power
  keeps_config_cyhal_gpio_init keeps_config_cyhal_gpio_toggle
  keeps_config_cyhal_gpio_write keeps_config_cyhal_comp_read
  keeps_config_cyhal_syspm_hibernate keeps_config_CY_ASSERT : core.

Ltac keeps_config_steps :=
  repeat first
    [ apply keeps_config_bind; [| intros ? ]
    | apply keeps_config_if
    | solve [auto]
    | solve [unfold cyhal_wdt_free, __enable_irq, printf,
               Cy_LPComp_ConnectULPReference, Cy_LPComp_UlpReferenceEnable,
               cyhal_system_delay_us, cyhal_system_delay_ms,
               Cy_GPIO_SetDrivemode_HIGHZ; auto] ].

Lemma keeps_config_lpcomp_enter_hibernate_mode src :
  keeps_config (lpcomp_enter_hibernate_mode P E src).
Proof. unfold lpcomp_enter_hibernate_mode. keeps_config_steps. Qed.

Lemma keeps_config_sensing_loop samples :
  keeps_config (sensing_loop P E samples).
Proof.
  induction samples as [|sample rest IH]; cbn [sensing_loop].
  - intros w. reflexivity.
  - pose proof keeps_config_lpcomp_enter_hibernate_mode.
    keeps_config_steps.
Qed.

Lemma keeps_config_main samples : keeps_config (main P E samples).
Proof.
  pose proof keeps_config_sensing_loop.
  unfold main. keeps_config_steps.
Qed.

End KeepsConfig.

(** C8. The configuration record starts as power level low, hysteresis
    disabled, and no run changes it: it has this value wherever a run of
    [main] stands (polling, hibernating or halted), and neither [main] nor
    the transition changes the record from any state. *)
Theorem comparator_config_never_mutated
    (P : platform) (E : environment) (samples : list bool)
    (src : cyhal_syspm_hibernate_source_t) (w : world) :
  myCompConfig (power_on P) =
    {| power := CYHAL_POWER_LEVEL_LOW P; hysteresis := false |} /\
  myCompConfig (final_world (run P E samples)) =
    {| power := CYHAL_POWER_LEVEL_LOW P; hysteresis := false |} /\
  myCompConfig (final_world (main P E samples w)) = myCompConfig w /\
  myCompConfig (final_world (lpcomp_enter_hibernate_mode P E src w)) =
    myCompConfig w.
Proof.
  split; [reflexivity|]. split; [| split].
  - unfold run. now rewrite keeps_config_main.
  - apply keeps_config_main.
  - apply keeps_config_lpcomp_enter_hibernate_mode.
Qed.

(** ** The pass on a HIGH reading *)

Lemma split_after_silent (body l pre post : list event) (v : bool) :
  Forall (fun e => is_comp_read e = false) body ->
  body ++ l = pre ++ EvCompRead v :: post ->
  exists pre', pre = body ++ pre' /\ l = pre' ++ EvCompRead v :: post.
Proof.
  intros Hb. revert pre.
  induction Hb as [|e body He _ IH]; intros pre Heq.
  - exists pre. now split.
  - destruct pre as [|e' pre]; cbn [app] in Heq.
    + injection Heq as -> _. discriminate He.
    + injection Heq as <- Heq. destruct (IH pre Heq) as (pre' & -> & Hl).
      exists pre'. now split.
Qed.

Lemma blink_events_silent :
  Forall (fun e => is_comp_read e = false) blink_events.
Proof. repeat constructor. Qed.

Lemma hibernate_entry_events_silent (P : platform) src :
  Forall (fun e => is_comp_read e = false) (hibernate_entry_events P src).
Proof.
  unfold hibernate_entry_events.
  destruct (TARGET_APP_CY8CKIT_062S2_43012 P); repeat constructor.
Qed.

Lemma startup_events_silent (P : platform) :
  Forall (fun e => is_comp_read e = false) (startup_events P).
Proof.
  unfold startup_events. destruct (CY_DEVICE_SECURE P); repeat constructor.
Qed.

Lemma loop_events_head (P : platform) (l : list event) :
  loop_events P l -> l = [] \/ exists v l', l = EvCompRead v :: l'.
Proof. destruct 1; [now left | right; eauto ..]. Qed.

Lemma loop_events_after_high (P : platform) (l : list event) :
  loop_events P l ->
  forall pre post,
    l = pre ++ EvCompRead true :: post ->
    exists post',
      post = blink_events ++ post' /\
      (post' = [] \/ exists v post'', post' = EvCompRead v :: post'').
Proof.
  induction 1 as [|l Hl IH| | |l Hl IH]; intros pre post Heq.
  - now destruct pre.
  - destruct pre as [|e pre]; cbn [app] in Heq.
    + injection Heq as <-. exists l. split; [reflexivity|].
      exact (loop_events_head P l Hl).
    + injection Heq as _ Heq.
      destruct (split_after_silent _ _ _ _ _ blink_events_silent Heq)
        as (pre' & _ & Hl').
      exact (IH _ _ Hl').
  - destruct pre as [|e pre]; cbn [app] in Heq; [discriminate|].
    injection Heq as _ Heq. rewrite <- (app_nil_r (hibernate_entry_events _ _)) in Heq.
    destruct (split_after_silent _ _ _ _ _
                (hibernate_entry_events_silent P _) Heq) as (pre' & _ & Hl').
    now destruct pre'.
  - destruct pre as [|e pre]; cbn [app] in Heq; [discriminate|].
    injection Heq as _ Heq.
    destruct (split_after_silent _ _ _ _ _
                (hibernate_entry_events_silent P _) Heq) as (pre' & _ & Hl').
    unfold hibernate_failure_events in Hl'.
    destruct pre' as [|? [|? [|? [|? ?]]]]; discriminate Hl'.
  - destruct pre as [|e pre]; cbn [app] in Heq; [discriminate|].
    injection Heq as _ Heq.
    destruct (split_after_silent _ _ _ _ _
                (hibernate_entry_events_silent P _) Heq) as (pre' & _ & Hl').
    exact (IH _ _ Hl').
Qed.

(** C4. In every run, wherever the log shows a HIGH reading, what follows it
    is exactly one indicator toggle, then a delay of [TOGGLE_LED_PERIOD]
    (500 ms), then the status line; after these the log either ends or goes
    on with the next comparator read. *)
Theorem high_reading_one_toggle_one_pause
    (P : platform) (E : environment) (samples : list bool)
    (pre post : list event) :
  trace (final_world (run P E samples)) = pre ++ EvCompRead true :: post ->
  exists post',
    post = [EvGpioToggle; EvDelayMs TOGGLE_LED_PERIOD; EvPrintf msg_normal_mode]
           ++ post' /\
    (post' = [] \/ exists v post'', post' = EvCompRead v :: post'') /\
    500 <= TOGGLE_LED_PERIOD.
Proof.
  intros Heq.
  assert (Hms : 500 <= TOGGLE_LED_PERIOD) by (unfold TOGGLE_LED_PERIOD; lia).
  destruct (startup_ok_dec P E) as [Hok|Hno].
  - rewrite (run_startup_ok P E _ Hok) in Heq.
    destruct (sensing_loop_events P E samples (at_loop_entry P E))
      as (l & Hl & Hev).
    rewrite Hl in Heq. cbn [at_loop_entry trace] in Heq.
    destruct (split_after_silent _ _ _ _ _ (startup_events_silent P) Heq)
      as (pre' & _ & Hl').
    destruct (loop_events_after_high P l Hev _ _ Hl') as (post' & Hp & Hn).
    exists post'. now repeat split.
  - exfalso.
    destruct (run_startup_failed P E samples Hno) as (_ & Ht).
    rewrite Heq in Ht. apply Forall_app in Ht as (_ & Ht).
    apply Forall_inv in Ht. apply startup_call_no_sensing in Ht.
    discriminate Ht.
Qed.

Lemma high_reading_one_toggle_one_pause_witness :
  trace (final_world (run board env_ok [true; true])) =
    startup_events board
    ++ EvCompRead true :: (blink_events ++ EvCompRead true :: blink_events) /\
  exists post',
    blink_events ++ EvCompRead true :: blink_events =
      [EvGpioToggle; EvDelayMs TOGGLE_LED_PERIOD; EvPrintf msg_normal_mode]
      ++ post' /\
    (post' = [] \/ exists v post'', post' = EvCompRead v :: post'') /\
    500 <= TOGGLE_LED_PERIOD.
Proof.
  split; [reflexivity|].
  exact (high_reading_one_toggle_one_pause board env_ok [true; true]
           (startup_events board)
           (blink_events ++ EvCompRead true :: blink_events) eq_refl).
Defined.

(** ** The indicator *)

Lemma high_readings_startup (P : platform) :
  high_readings (startup_events P) = 0%nat.
Proof. unfold startup_events. now destruct (CY_DEVICE_SECURE P). Qed.

Lemma user_led_sensing_loop_defined
    (P : platform) (E : environment) (samples : list bool) (w : world) :
  user_led w <> None ->
  user_led (final_world (sensing_loop P E samples w)) <> None.
Proof.
  revert w. induction samples as [|sample rest IH]; intros w Hw; [exact Hw|].
  destruct sample.
  - rewrite sensing_loop_high. apply IH. cbn [blinked user_led].
    now destruct (user_led w).
  - rewrite sensing_loop_low. cbv zeta.
    destruct (hibernate_rslt E (hibernate_calls w)) as [status|];
      [destruct (status =? CY_SYSPM_SUCCESS P); [apply IH|] |];
      cbn [final_world torn_down seized log user_led];
      now destruct (user_led w).
Qed.

(** C9, as stated, fails: after one HIGH reading and one LOW reading the run
    is hibernating, well past the 2-second interval; the toggle rule gives
    the ON level (one toggle from OFF), the pin is at the OFF level that the
    transition wrote. *)
Lemma toggle_rule_broken_after_signal :
  let r := run board env_ok [true; false] in
  is_hibernating r = true /\
  trace (final_world r) =
    startup_events board
    ++ EvCompRead true :: blink_events
    ++ EvCompRead false
    :: hibernate_entry_events board (CYHAL_SYSPM_HIBERNATE_LPCOMP0_HIGH board) /\
  toggle_rule board (trace (final_world r)) = CYBSP_LED_STATE_ON board /\
  user_led (final_world r) = Some (CYBSP_LED_STATE_OFF board) /\
  user_led (final_world r) <> Some (toggle_rule board (trace (final_world r))).
Proof. repeat split. discriminate. Qed.

(** C9, amended.  Once start-up and the initialisation of the indicator pin
    have succeeded, the indicator level is defined wherever a run stands.
    While only HIGH readings have been taken it is the level that the
    toggle-on-HIGH rule gives from the initial OFF level: OFF toggled once
    per reading.  At a LOW reading the transition drives it: whatever the
    number of earlier toggles and however the transition ends, it leaves the
    pin at the OFF level it wrote after the 2-second interval. *)
Theorem indicator_level_determined
    (P : platform) (E : environment) (samples : list bool) (n : nat)
    (src : cyhal_syspm_hibernate_source_t) (w : world) :
  startup_ok P E ->
  gpio_init_rslt E = CY_RSLT_SUCCESS P ->
  let highs := run P E (repeat true n) in
  let low := run P E (repeat true n ++ [false]) in
  (exists level, user_led (final_world (run P E samples)) = Some level) /\
  (is_polling highs = true /\
   high_readings (trace (final_world highs)) = n /\
   user_led (final_world highs) =
     Some (toggle_rule P (trace (final_world highs)))) /\
  user_led (final_world low) = Some (CYBSP_LED_STATE_OFF P) /\
  user_led (final_world (lpcomp_enter_hibernate_mode P E src w)) =
    option_map (fun _ => CYBSP_LED_STATE_OFF P) (user_led w).
Proof.
  intros Hok Hgpio highs low.
  assert (Hentry : user_led (at_loop_entry P E) = Some (CYBSP_LED_STATE_OFF P)).
  { cbn [at_loop_entry user_led]. now rewrite Hgpio, Z.eqb_refl. }
  split; [| split; [| split]].
  - rewrite (run_startup_ok P E _ Hok).
    pose proof (user_led_sensing_loop_defined P E samples (at_loop_entry P E))
      as Hdef.
    destruct (user_led (final_world
                (sensing_loop P E samples (at_loop_entry P E)))) as [level|].
    + now exists level.
    + exfalso. apply Hdef; [now rewrite Hentry | reflexivity].
  - unfold highs. rewrite (run_startup_ok P E _ Hok).
    rewrite <- (app_nil_r (repeat true n)), sensing_loop_highs.
    cbn [sensing_loop final_world is_polling].
    assert (Hn : high_readings
                   (trace (blinked_times n (at_loop_entry P E))) = n).
    { rewrite trace_blinked_times. cbn [at_loop_entry trace].
      unfold high_readings.
      rewrite count_events_app, count_events_blinks.
      fold (high_readings (startup_events P)).
      rewrite high_readings_startup. cbn. lia. }
    split; [reflexivity|]. split; [exact Hn|].
    unfold toggle_rule. rewrite Hn, user_led_blinked_times, Hentry.
    reflexivity.
  - unfold low. rewrite (run_startup_ok P E _ Hok).
    rewrite sensing_loop_highs, sensing_loop_low. cbv zeta.
    set (w0 := blinked_times n (at_loop_entry P E)).
    assert (Hw0 : exists b, user_led w0 = Some b).
    { unfold w0. rewrite user_led_blinked_times, Hentry. now eexists. }
    destruct Hw0 as (b & Hb).
    destruct (hibernate_rslt E (hibernate_calls w0)) as [status|];
      [destruct (status =? CY_SYSPM_SUCCESS P) |];
      cbn [sensing_loop final_world torn_down seized log user_led];
      now rewrite Hb.
  - rewrite lpcomp_enter_hibernate_mode_cases.
    destruct (hibernate_rslt E (hibernate_calls w)) as [status|];
      [destruct (status =? CY_SYSPM_SUCCESS P) |]; reflexivity.
Qed.

Lemma indicator_level_determined_witness :
  startup_ok board env_ok /\
  gpio_init_rslt env_ok = CY_RSLT_SUCCESS board /\
  let highs := run board env_ok (repeat true 3) in
  let low := run board env_ok (repeat true 3 ++ [false]) in
  (exists level,
     user_led (final_world (run board env_ok [true; false; true])) =
       Some level) /\
  (is_polling highs = true /\
   high_readings (trace (final_world highs)) = 3%nat /\
   user_led (final_world highs) =
     Some (toggle_rule board (trace (final_world highs)))) /\
  user_led (final_world low) = Some (CYBSP_LED_STATE_OFF board) /\
  user_led (final_world
              (lpcomp_enter_hibernate_mode board env_ok 2
                 (at_loop_entry board env_ok))) =
    option_map (fun _ => CYBSP_LED_STATE_OFF board)
      (user_led (at_loop_entry board env_ok)).
Proof.
  split; [exact startup_ok_board_env_ok|]. split; [reflexivity|].
  exact (indicator_level_determined board env_ok [true; false; true] 3 2
           (at_loop_entry board env_ok) startup_ok_board_env_ok eq_refl).
Defined.

(** * Whole runs *)

(** ** How a run can end *)

Lemma count_events_none (f : event -> bool) (t : list event) :
  Forall (fun e => f e = false) t -> count_events f t = 0%nat.
Proof.
  unfold count_events. induction 1 as [|e t He _ IH]; [reflexivity|].
  cbn [filter]. now rewrite He.
Qed.

Lemma startup_step_call (e : event) : startup_step e -> startup_call e.
Proof. unfold startup_step, startup_call. cbn [In]. tauto. Qed.

Ltac startup_step_cases H :=
  unfold startup_step in H; cbn [In] in H;
  destruct H as [<-|[<-|[<-|[<-|[<-|[]]]]]].

(** A failed start-up: the same halted state whatever the samples, logged
    as start-up steps followed by the trap. *)
Lemma run_startup_failed_shape (P : platform) (E : environment) :
  ~ startup_ok P E ->
  exists w t,
    (forall samples, run P E samples = Halted w) /\
    trace w = t ++ [EvHalt] /\
    Forall startup_step t.
Proof.
  intros Hno. unfold startup_ok in Hno.
  destruct (CY_DEVICE_SECURE P) eqn:Hsec.
  - destruct (CY_RSLT_SUCCESS P =? wdt_init_rslt E) eqn:Hw.
    + destruct (bsp_init_rslt E =? CY_RSLT_SUCCESS P) eqn:Hb.
      * destruct (retarget_io_init_rslt E 0 =? CY_RSLT_SUCCESS P) eqn:Hr.
        -- exfalso. apply Hno. apply Z.eqb_eq in Hw, Hb, Hr. auto.
        -- eexists. exists [EvWdtInit; EvWdtFree; EvBspInit; EvEnableIrq;
                            EvRetargetIoInit].
           split; [intros samples; unfold run, main, power_on; rewrite Hsec;
                   unfold_calls; rewrite Hw; simpl; rewrite Hb; simpl;
                   rewrite Hr; simpl; reflexivity|].
           split; [reflexivity|].
           repeat constructor; unfold startup_step; simpl; tauto.
      * eexists. exists [EvWdtInit; EvWdtFree; EvBspInit].
        split; [intros samples; unfold run, main, power_on; rewrite Hsec;
                unfold_calls; rewrite Hw; simpl; rewrite Hb; simpl;
                reflexivity|].
        split; [reflexivity|].
        repeat constructor; unfold startup_step; simpl; tauto.
    + eexists. exists [EvWdtInit].
      split; [intros samples; unfold run, main, power_on; rewrite Hsec;
              unfold_calls; rewrite Hw; simpl; reflexivity|].
      split; [reflexivity|].
      repeat constructor; unfold startup_step; simpl; tauto.
  - destruct (bsp_init_rslt E =? CY_RSLT_SUCCESS P) eqn:Hb.
    + destruct (retarget_io_init_rslt E 0 =? CY_RSLT_SUCCESS P) eqn:Hr.
      * exfalso. apply Hno. apply Z.eqb_eq in Hb, Hr.
        repeat split; auto. discriminate.
      * eexists. exists [EvBspInit; EvEnableIrq; EvRetargetIoInit].
        split; [intros samples; unfold run, main, power_on; rewrite Hsec;
                unfold_calls; rewrite Hb; simpl; rewrite Hr; simpl;
                reflexivity|].
        split; [reflexivity|].
        repeat constructor; unfold startup_step; simpl; tauto.
    + eexists. exists [EvBspInit].
      split; [intros samples; unfold run, main, power_on; rewrite Hsec;
              unfold_calls; rewrite Hb; simpl; reflexivity|].
      split; [reflexivity|].
      repeat constructor; unfold startup_step; simpl; tauto.
Qed.

Lemma count_halts_entry (P : platform) src :
  count_events is_halt (hibernate_entry_events P src) = 0%nat.
Proof.
  unfold hibernate_entry_events.
  now destruct (TARGET_APP_CY8CKIT_062S2_43012 P).
Qed.

Lemma count_halts_startup (P : platform) :
  count_events is_halt (startup_events P) = 0%nat.
Proof. unfold startup_events. now destruct (CY_DEVICE_SECURE P). Qed.

Lemma hibernate_entry_events_last (P : platform) src :
  exists t, hibernate_entry_events P src = t ++ [EvHibernate src].
Proof.
  unfold hibernate_entry_events.
  destruct (TARGET_APP_CY8CKIT_062S2_43012 P);
    [ exists [EvGpioWrite (CYBSP_LED_STATE_ON P);
              EvDelayMs LED_ON_DUR_BEFORE_HIB_IN_MS;
              EvGpioWrite (CYBSP_LED_STATE_OFF P);
              EvPrintf msg_entering_hibernate;
              EvRetargetIoDeinit; EvSetDrivemodeHighZ]
    | exists [EvGpioWrite (CYBSP_LED_STATE_ON P);
              EvDelayMs LED_ON_DUR_BEFORE_HIB_IN_MS;
              EvGpioWrite (CYBSP_LED_STATE_OFF P);
              EvPrintf msg_entering_hibernate;
              EvRetargetIoDeinit] ];
    reflexivity.
Qed.

(** The ways in which the loop can stand, from any state in which it is
    entered. *)
Lemma sensing_loop_outcome
    (P : platform) (E : environment) (samples : list bool) (w : world) :
  match sensing_loop P E samples w with
  | Returned _ _ => False
  | Halted w' =>
      (exists t, trace w' = t ++ [EvHalt]) /\
      count_events is_halt (trace w') = S (count_events is_halt (trace w))
  | Hibernating w' =>
      (exists t,
         trace w' = t ++ [EvHibernate (CYHAL_SYSPM_HIBERNATE_LPCOMP0_HIGH P)]) /\
      console_up w' = false /\
      count_events is_halt (trace w') = count_events is_halt (trace w)
  | Polling w' =>
      count_events is_comp_read (trace w') =
        (count_events is_comp_read (trace w) + length samples)%nat /\
      count_events is_halt (trace w') = count_events is_halt (trace w)
  end.
Proof.
  revert w. induction samples as [|sample rest IH]; intros w.
  - cbn. split; [lia | reflexivity].
  - destruct sample.
    + rewrite sensing_loop_high. specialize (IH (blinked w)).
      assert (Hr : count_events is_comp_read (trace (blinked w)) =
                   S (count_events is_comp_read (trace w))).
      { cbn [blinked trace]. rewrite count_events_app. cbn. lia. }
      assert (Hh : count_events is_halt (trace (blinked w)) =
                   count_events is_halt (trace w)).
      { cbn [blinked trace]. rewrite count_events_app. cbn. lia. }
      destruct (sensing_loop P E rest (blinked w)); [exact IH | | |].
      * now rewrite <- Hh.
      * now rewrite <- Hh.
      * cbn [length]. rewrite <- Hh. split; [lia | tauto].
    + rewrite sensing_loop_low. cbv zeta.
      set (src := CYHAL_SYSPM_HIBERNATE_LPCOMP0_HIGH P).
      set (w1 := log (EvCompRead false) w).
      assert (Hr : count_events is_comp_read (trace (torn_down P src w1)) =
                   S (count_events is_comp_read (trace w))).
      { cbn [torn_down w1 log trace].
        rewrite !count_events_app, count_reads_entry. cbn. lia. }
      assert (Hh : count_events is_halt (trace (torn_down P src w1)) =
                   count_events is_halt (trace w)).
      { cbn [torn_down w1 log trace].
        rewrite !count_events_app, count_halts_entry. cbn. lia. }
      destruct (hibernate_rslt E (hibernate_calls w)) as [status|].
      * destruct (status =? CY_SYSPM_SUCCESS P).
        -- specialize (IH (torn_down P src w1)).
           destruct (sensing_loop P E rest (torn_down P src w1));
             [exact IH | | |].
           ++ now rewrite <- Hh.
           ++ now rewrite <- Hh.
           ++ cbn [length]. rewrite <- Hh. split; [lia | tauto].
        -- split.
           ++ exists (trace w1 ++ hibernate_entry_events P src
                        ++ [EvRetargetIoInit; EvPrintf msg_not_entered]).
              cbn [seized trace]. unfold hibernate_failure_events.
              repeat rewrite <- app_assoc. reflexivity.
           ++ cbn [seized w1 log trace].
              rewrite !count_events_app, count_halts_entry. cbn. lia.
      * split; [| split; [reflexivity | exact Hh]].
        destruct (hibernate_entry_events_last P src) as (t & Ht).
        exists (trace w1 ++ t). cbn [torn_down trace]. rewrite Ht.
        now rewrite app_assoc.
Qed.

(** The same for a run from power-on. *)
Lemma run_outcome (P : platform) (E : environment) (samples : list bool) :
  match run P E samples with
  | Returned _ _ => False
  | Halted w' =>
      (exists t, trace w' = t ++ [EvHalt]) /\
      count_events is_halt (trace w') = 1%nat
  | Hibernating w' =>
      (exists t,
         trace w' = t ++ [EvHibernate (CYHAL_SYSPM_HIBERNATE_LPCOMP0_HIGH P)]) /\
      console_up w' = false /\
      count_events is_halt (trace w') = 0%nat
  | Polling w' =>
      count_events is_comp_read (trace w') = length samples /\
      count_events is_halt (trace w') = 0%nat
  end.
Proof.
  destruct (startup_ok_dec P E) as [Hok|Hno].
  - rewrite (run_startup_ok P E _ Hok).
    pose proof (sensing_loop_outcome P E samples (at_loop_entry P E)) as H.
    cbn [at_loop_entry trace] in H.
    rewrite count_reads_startup, count_halts_startup in H. exact H.
  - destruct (run_startup_failed_shape P E Hno) as (w & t & Hrun & Ht & Hs).
    rewrite Hrun. split; [now exists t|].
    rewrite Ht, count_events_app, count_events_none; [reflexivity|].
    eapply Forall_impl; [| exact Hs].
    intros e He. startup_step_cases He; reflexivity.
Qed.

(** X1. [main] has no way out: no run ever returns from it, whatever the
    platform answers and whatever the comparator reads. *)
Theorem main_never_returns
    (P : platform) (E : environment) (samples : list bool) :
  is_returned (run P E samples) = false.
Proof.
  pose proof (run_outcome P E samples) as H.
  destruct (run P E samples); [contradiction | reflexivity ..].
Qed.



(** X3. Hibernation is final and clean: in a hibernating run the last call
    of the log is the hibernate call with [CYHAL_SYSPM_HIBERNATE_LPCOMP0_HIGH],
    the console has been released, and no trap was taken. *)
Theorem hibernation_is_last
    (P : platform) (E : environment) (samples : list bool) :
  is_hibernating (run P E samples) = true ->
  (exists t,
     trace (final_world (run P E samples)) =
       t ++ [EvHibernate (CYHAL_SYSPM_HIBERNATE_LPCOMP0_HIGH P)]) /\
  console_up (final_world (run P E samples)) = false /\
  count_events is_halt (trace (final_world (run P E samples))) = 0%nat.
Proof.
  intros Hh. pose proof (run_outcome P E samples) as H.
  destruct (run P E samples); try discriminate Hh. exact H.
Qed.

Lemma hibernation_is_last_witness :
  is_hibernating (run board env_ok [true; false; true]) = true /\
  (exists t,
     trace (final_world (run board env_ok [true; false; true])) =
       t ++ [EvHibernate (CYHAL_SYSPM_HIBERNATE_LPCOMP0_HIGH board)]) /\
  console_up (final_world (run board env_ok [true; false; true])) = false /\
  count_events is_halt
    (trace (final_world (run board env_ok [true; false; true]))) = 0%nat.
Proof.
  split; [reflexivity|].
  exact (hibernation_is_last board env_ok [true; false; true] eq_refl).
Defined.

(** X4. A run that is still polling has read the comparator once for each
    sample supplied, and has taken no trap. *)
Theorem polling_reads_every_sample
    (P : platform) (E : environment) (samples : list bool) :
  is_polling (run P E samples) = true ->
  count_events is_comp_read (trace (final_world (run P E samples))) =
    length samples /\
  count_events is_halt (trace (final_world (run P E samples))) = 0%nat.
Proof.
  intros Hp. pose proof (run_outcome P E samples) as H.
  destruct (run P E samples); try discriminate Hp. exact H.
Qed.

Lemma polling_reads_every_sample_witness :
  is_polling (run board env_ok [true; true; true]) = true /\
  count_events is_comp_read
    (trace (final_world (run board env_ok [true; true; true]))) = 3%nat /\
  count_events is_halt
    (trace (final_world (run board env_ok [true; true; true]))) = 0%nat.
Proof.
  split; [reflexivity|].
  exact (polling_reads_every_sample board env_ok [true; true; true] eq_refl).
Defined.

(** ** The watchdog block of secure devices *)

(** X5. On a secure device a failed watchdog initialisation stops the
    program at once: the log is the watchdog initialisation and the trap.
    The watchdog is not freed, and neither the board nor anything after it
    is initialised. *)
Theorem secure_watchdog_failure_halts
    (P : platform) (E : environment) (samples : list bool) :
  CY_DEVICE_SECURE P = true ->
  wdt_init_rslt E <> CY_RSLT_SUCCESS P ->
  is_halted (run P E samples) = true /\
  trace (final_world (run P E samples)) = [EvWdtInit; EvHalt].
Proof.
  intros Hsec Hw.
  unfold run, main, power_on. rewrite Hsec. unfold_calls.
  destruct (Z.eqb_spec (CY_RSLT_SUCCESS P) (wdt_init_rslt E)) as [Heq|Hne].
  - exfalso. apply Hw. now symmetry.
  - simpl. split; reflexivity.
Qed.

Lemma secure_watchdog_failure_halts_witness :
  CY_DEVICE_SECURE secure_board = true /\
  wdt_init_rslt env_wdt_fails <> CY_RSLT_SUCCESS secure_board /\
  is_halted (run secure_board env_wdt_fails [true; false]) = true /\
  trace (final_world (run secure_board env_wdt_fails [true; false])) =
    [EvWdtInit; EvHalt].
Proof.
  assert (H : wdt_init_rslt env_wdt_fails <> CY_RSLT_SUCCESS secure_board)
    by (simpl; lia).
  split; [reflexivity|]. split; [exact H|].
  exact (secure_watchdog_failure_halts secure_board env_wdt_fails
           [true; false] eq_refl H).
Defined.

Lemma count_wdt_calls_loop (P : platform) (l : list event) :
  loop_events P l -> count_events is_wdt_call l = 0%nat.
Proof.
  intros Hl. apply count_events_none.
  induction Hl as [|l _ IH| | |l _ IH]; unfold hibernate_entry_events,
    hibernate_failure_events, blink_events;
    destruct (TARGET_APP_CY8CKIT_062S2_43012 P); cbn [app];
    repeat (constructor; [reflexivity|]); try exact IH; constructor.
Qed.

(** X6. A build that is not for a secure device never touches the
    watchdog: no run logs a watchdog call. *)
Theorem watchdog_untouched_unless_secure
    (P : platform) (E : environment) (samples : list bool) :
  CY_DEVICE_SECURE P = false ->
  count_events is_wdt_call (trace (final_world (run P E samples))) = 0%nat.
Proof.
  intros Hsec.
  destruct (startup_ok_dec P E) as [Hok|Hno].
  - rewrite (run_startup_ok P E _ Hok).
    destruct (sensing_loop_events P E samples (at_loop_entry P E))
      as (l & Hl & Hev).
    rewrite Hl, count_events_app, (count_wdt_calls_loop P l Hev).
    cbn [at_loop_entry trace]. unfold startup_events. rewrite Hsec.
    reflexivity.
  - unfold startup_ok in Hno. rewrite Hsec in Hno.
    unfold run, main, power_on. rewrite Hsec. unfold_calls.
    destruct (Z.eqb_spec (bsp_init_rslt E) (CY_RSLT_SUCCESS P)) as [Hb|Hb];
      simpl; [| reflexivity].
    destruct (Z.eqb_spec (retarget_io_init_rslt E 0) (CY_RSLT_SUCCESS P))
      as [Hr|Hr]; simpl; [| reflexivity].
    exfalso. apply Hno. repeat split; auto. discriminate.
Qed.

Lemma watchdog_untouched_unless_secure_witness :
  CY_DEVICE_SECURE board = false /\
  count_events is_wdt_call
    (trace (final_world (run board env_ok [true; false]))) = 0%nat.
Proof.
  split; [reflexivity|].
  exact (watchdog_untouched_unless_secure board env_ok [true; false] eq_refl).
Defined.

(** ** The comparator is set up before it is read *)

(** X7. Wherever the log of a run shows a comparator read, the whole
    start-up sequence lies before it: board and console initialisation, the
    banner, [cyhal_comp_init] with the configuration low power and no
    hysteresis, the connection and enabling of the local reference, the
    power setting, the 50 us settling delay and the initialisation of the
    indicator pin. *)
Theorem comparator_set_up_before_read
    (P : platform) (E : environment) (samples : list bool)
    (pre post : list event) (v : bool) :
  trace (final_world (run P E samples)) = pre ++ EvCompRead v :: post ->
  exists pre',
    pre =
      ((if CY_DEVICE_SECURE P then [EvWdtInit; EvWdtFree] else [])
       ++ [EvBspInit; EvEnableIrq; EvRetargetIoInit;
           EvPrintf msg_clear_screen; EvPrintf msg_banner;
           EvCompInit {| power := CYHAL_POWER_LEVEL_LOW P;
                         hysteresis := false |};
           EvConnectULPReference; EvUlpReferenceEnable;
           EvCompSetPower (CYHAL_POWER_LEVEL_LOW P);
           EvDelayUs 50;
           EvGpioInit (CYBSP_LED_STATE_OFF P)])
      ++ pre'.
Proof.
  intros Heq.
  destruct (startup_ok_dec P E) as [Hok|Hno].
  - rewrite (run_startup_ok P E _ Hok) in Heq.
    destruct (sensing_loop_events P E samples (at_loop_entry P E))
      as (l & Hl & _).
    rewrite Hl in Heq. cbn [at_loop_entry trace] in Heq.
    destruct (split_after_silent _ _ _ _ _ (startup_events_silent P) Heq)
      as (pre' & Hpre & _).
    exists pre'. exact Hpre.
  - exfalso.
    destruct (run_startup_failed P E samples Hno) as (_ & Ht).
    rewrite Heq in Ht. apply Forall_app in Ht as (_ & Ht).
    apply Forall_inv in Ht. apply startup_call_no_sensing in Ht.
    discriminate Ht.
Qed.

Lemma comparator_set_up_before_read_witness :
  trace (final_world (run board env_ok [true; false])) =
    (startup_events board ++ EvCompRead true :: blink_events)
    ++ EvCompRead false
    :: hibernate_entry_events board (CYHAL_SYSPM_HIBERNATE_LPCOMP0_HIGH board) /\
  exists pre',
    startup_events board ++ EvCompRead true :: blink_events =
      ((if CY_DEVICE_SECURE board then [EvWdtInit; EvWdtFree] else [])
       ++ [EvBspInit; EvEnableIrq; EvRetargetIoInit;
           EvPrintf msg_clear_screen; EvPrintf msg_banner;
           EvCompInit {| power := CYHAL_POWER_LEVEL_LOW board;
                         hysteresis := false |};
           EvConnectULPReference; EvUlpReferenceEnable;
           EvCompSetPower (CYHAL_POWER_LEVEL_LOW board);
           EvDelayUs 50;
           EvGpioInit (CYBSP_LED_STATE_OFF board)])
      ++ pre'.
Proof.
  split; [reflexivity|].
  exact (comparator_set_up_before_read board env_ok [true; false]
           (startup_events board ++ EvCompRead true :: blink_events)
           (hibernate_entry_events board
              (CYHAL_SYSPM_HIBERNATE_LPCOMP0_HIGH board))
           false eq_refl).
Defined.

(** ** Accounting *)

Lemma total_delay_ms_app (t1 t2 : list event) :
  total_delay_ms (t1 ++ t2) = total_delay_ms t1 + total_delay_ms t2.
Proof.
  induction t1 as [|e t1 IH]; [reflexivity|].
  destruct e; cbn [app total_delay_ms]; rewrite ?IH; lia.
Qed.

Lemma total_delay_ms_startup_steps (t : list event) :
  Forall startup_step t -> total_delay_ms t = 0.
Proof.
  induction 1 as [|e t He _ IH]; [reflexivity|].
  startup_step_cases He; exact IH.
Qed.

(** Per pass of the loop: what one HIGH reading and one LOW reading add. *)
Lemma loop_events_accounts (P : platform) (l : list event) :
  loop_events P l ->
  count_events is_toggle l = high_readings l /\
  count_events is_hibernate l = count_events is_low_read l /\
  count_events is_console_release l = count_events is_low_read l /\
  count_events is_gpio_write l = (2 * count_events is_low_read l)%nat /\
  total_delay_ms l =
    500 * Z.of_nat (high_readings l)
    + 2000 * Z.of_nat (count_events is_low_read l).
Proof.
  unfold high_readings, count_events.
  induction 1 as [|l _ IH| | |l _ IH];
    unfold hibernate_entry_events, hibernate_failure_events, blink_events,
      TOGGLE_LED_PERIOD, LED_ON_DUR_BEFORE_HIB_IN_MS;
    destruct (TARGET_APP_CY8CKIT_062S2_43012 P);
    cbn [app filter length total_delay_ms is_toggle is_high_read is_hibernate
           is_low_read is_console_release is_gpio_write];
    try (destruct IH as (I1 & I2 & I3 & I4 & I5));
    repeat split; lia.
Qed.

Lemma run_accounts_aux (P : platform) (E : environment) (samples : list bool) :
  let t := trace (final_world (run P E samples)) in
  count_events is_toggle t = high_readings t /\
  count_events is_hibernate t = count_events is_low_read t /\
  count_events is_console_release t = count_events is_low_read t /\
  count_events is_gpio_write t = (2 * count_events is_low_read t)%nat /\
  total_delay_ms t =
    500 * Z.of_nat (high_readings t)
    + 2000 * Z.of_nat (count_events is_low_read t).
Proof.
  cbv zeta. destruct (startup_ok_dec P E) as [Hok|Hno].
  - rewrite (run_startup_ok P E _ Hok).
    destruct (sensing_loop_events P E samples (at_loop_entry P E))
      as (l & Hl & Hev).
    rewrite Hl. cbn [at_loop_entry trace].
    destruct (loop_events_accounts P l Hev) as (I1 & I2 & I3 & I4 & I5).
    unfold high_readings in *.
    rewrite !count_events_app, total_delay_ms_app, I1, I2, I3, I4, I5.
    unfold startup_events.
    destruct (CY_DEVICE_SECURE P); cbn; repeat split; lia.
  - destruct (run_startup_failed_shape P E Hno) as (w & t & Hrun & Ht & Hs).
    rewrite Hrun. cbn [final_world]. rewrite Ht.
    unfold high_readings.
    rewrite !count_events_app, total_delay_ms_app,
      (total_delay_ms_startup_steps t Hs).
    assert (Hnone : forall f,
              (forall e, startup_step e -> f e = false) ->
              count_events f t = 0%nat).
    { intros f Hf. apply count_events_none.
      eapply Forall_impl; [| exact Hs]. exact Hf. }
    rewrite (Hnone is_toggle), (Hnone is_high_read), (Hnone is_hibernate),
      (Hnone is_low_read), (Hnone is_console_release), (Hnone is_gpio_write);
      try (intros e He; startup_step_cases He; reflexivity).
    cbn. repeat split; lia.
Qed.

(** X8. In every run the indicator is toggled once per HIGH reading; the
    hibernate call is made, and the console released, once per LOW reading;
    and the indicator is written twice per LOW reading and at no other
    time. *)
Theorem calls_per_reading
    (P : platform) (E : environment) (samples : list bool) :
  let t := trace (final_world (run P E samples)) in
  count_events is_toggle t = high_readings t /\
  count_events is_hibernate t = count_events is_low_read t /\
  count_events is_console_release t = count_events is_low_read t /\
  count_events is_gpio_write t = (2 * count_events is_low_read t)%nat.
Proof.
  pose proof (run_accounts_aux P E samples) as H. cbv zeta in *. tauto.
Qed.

(** X9. The blocking delay requested along a run, in milliseconds, is 500
    for each HIGH reading plus 2000 for each LOW reading; start-up asks for
    no millisecond delay. *)
Theorem delay_per_reading
    (P : platform) (E : environment) (samples : list bool) :
  let t := trace (final_world (run P E samples)) in
  total_delay_ms t =
    500 * Z.of_nat (high_readings t)
    + 2000 * Z.of_nat (count_events is_low_read t).
Proof.
  pose proof (run_accounts_aux P E samples) as H. cbv zeta in *. tauto.
Qed.

(** ** A hibernate call that comes back with the success status *)

(** X10. [lpcomp_enter_hibernate_mode] tests the status only for failure.
    When the hibernate call made at the first LOW reading comes back with
    [CY_SYSPM_SUCCESS], the function returns and the loop goes on: a
    following HIGH reading is read, the indicator is toggled and the status
    line is printed, all with the console still released. *)
Theorem loop_resumes_when_hibernate_returns_success
    (P : platform) (E : environment) (n : nat) :
  startup_ok P E ->
  hibernate_rslt E 0 = Some (CY_SYSPM_SUCCESS P) ->
  let r := run P E (repeat true n ++ [false; true]) in
  is_polling r = true /\
  trace (final_world r) =
    startup_events P
    ++ List.concat (repeat (EvCompRead true :: blink_events) n)
    ++ EvCompRead false
    :: hibernate_entry_events P (CYHAL_SYSPM_HIBERNATE_LPCOMP0_HIGH P)
    ++ [EvCompRead true; EvGpioToggle; EvDelayMs TOGGLE_LED_PERIOD;
        EvPrintf msg_normal_mode] /\
  console_up (final_world r) = false.
Proof.
  intros Hok Hh r. unfold r.
  rewrite (run_startup_ok P E _ Hok), sensing_loop_highs, sensing_loop_low.
  cbv zeta. rewrite hibernate_calls_blinked_times.
  cbn [at_loop_entry hibernate_calls]. rewrite Hh, Z.eqb_refl.
  rewrite sensing_loop_high. cbn [sensing_loop final_world is_polling].
  split; [reflexivity|]. split; [| reflexivity].
  cbn [blinked torn_down log trace]. rewrite trace_blinked_times.
  cbn [at_loop_entry trace]. unfold blink_events.
  repeat rewrite <- app_assoc. reflexivity.
Qed.

Lemma startup_ok_board_env_hibernate_returns :
  startup_ok board env_hibernate_returns.
Proof. repeat split. Defined.

Lemma loop_resumes_when_hibernate_returns_success_witness :
  startup_ok board env_hibernate_returns /\
  hibernate_rslt env_hibernate_returns 0 = Some (CY_SYSPM_SUCCESS board) /\
  let r := run board env_hibernate_returns (repeat true 1 ++ [false; true]) in
  is_polling r = true /\
  trace (final_world r) =
    startup_events board
    ++ List.concat (repeat (EvCompRead true :: blink_events) 1)
    ++ EvCompRead false
    :: hibernate_entry_events board (CYHAL_SYSPM_HIBERNATE_LPCOMP0_HIGH board)
    ++ [EvCompRead true; EvGpioToggle; EvDelayMs TOGGLE_LED_PERIOD;
        EvPrintf msg_normal_mode] /\
  console_up (final_world r) = false.
Proof.
  split; [exact startup_ok_board_env_hibernate_returns|].
  split; [reflexivity|].
  exact (loop_resumes_when_hibernate_returns_success board
           env_hibernate_returns 1
           startup_ok_board_env_hibernate_returns eq_refl).
Defined.

(** ** Later samples *)


